(** * metaschema-js: the command helper of [src/commands.ts]

    A shallow embedding of the document sniffer, the installer, the command
    runner and the result-log reader, and the properties of them that the
    specification states.

    Conventions of the embedding.
    - A JavaScript string is a [string]: a sequence of 8-bit code units, text
      outside ASCII being held in UTF-8.  On ASCII text (paths, version
      identifiers) comparison, case mapping and trimming coincide with
      JavaScript's, which works on UTF-16 code units.
    - A [Buffer] is a [string] of raw bytes; [Buffer.toString] is the UTF-8
      decoder that turns it into text.
    - A value that crosses a library boundary untyped (the result of
      [JSON.parse], [yaml.load], the xml2js parser) is a [JsValue].
    - Node's libraries and the outside world (network, child processes, the
      random source, the platform) are the fields of an [Env]; the program is
      a function of it.
    - The file system is a finite map from the path string handed to [fs] to
      the entry found there, which says also whether the system lets the
      process read and remove it; every observable action is appended to a
      trace. *)

From Stdlib Require Import Ascii String ZArith.
From stdpp Require Import base option gmap strings list pretty sorting.

#[local] Set Warnings "-register-all".

(** ** Strings *)

Module Str.

Definition chr (n : nat) : string := String (ascii_of_nat n) EmptyString.
Definition LF : string := chr 10.
Definition CR : string := chr 13.
Definition ESC : string := chr 27.
Definition DQ : string := chr 34.

(** [String.prototype.toLowerCase] on the ASCII range: [A-Z] move to
    [a-z], every other code unit stays.  No code unit above 127 maps to
    an ASCII letter in JavaScript either, so membership of the result in
    a list of ASCII words is decided exactly. *)
Definition lower (c : ascii) : ascii :=
  let n := nat_of_ascii c in
  if (65 <=? n) && (n <=? 90) then ascii_of_nat (n + 32) else c.

Fixpoint toLowerCase (s : string) : string :=
  match s with
  | EmptyString => EmptyString
  | String c r => String (lower c) (toLowerCase r)
  end.

(** White space of [String.prototype.trim] in the ASCII range:
    TAB, LF, VT, FF, CR and SPACE. *)
Definition is_space (c : ascii) : bool :=
  let n := nat_of_ascii c in
  ((9 <=? n) && (n <=? 13)) || (n =? 32).

Fixpoint trimStart (s : string) : string :=
  match s with
  | EmptyString => EmptyString
  | String c r => if is_space c then trimStart r else s
  end.

Fixpoint trimEnd (s : string) : string :=
  match s with
  | EmptyString => EmptyString
  | String c r =>
      match trimEnd r with
      | EmptyString => if is_space c then EmptyString else String c EmptyString
      | r' => String c r'
      end
  end.

Definition trim (s : string) : string := trimEnd (trimStart s).

(** [s.split(sep)] for a one-character separator.  The result is never
    the empty array: the empty string splits into one empty piece. *)
Fixpoint split (sep : ascii) (s : string) : list string :=
  match s with
  | EmptyString => [EmptyString]
  | String c r =>
      if Ascii.eqb c sep then EmptyString :: split sep r
      else match split sep r with
           | piece :: rest => String c piece :: rest
           | [] => [String c EmptyString]
           end
  end.

(** [pieces.join(sep)] on an array of strings. *)
Definition join (sep : string) (pieces : list string) : string :=
  String.concat sep pieces.

(** [Array.prototype.includes] on an array of strings. *)
Definition includes (l : list string) (s : string) : bool :=
  bool_decide (s ∈ l).

End Str.

(** ** JavaScript values *)

(** What [JSON.parse], [yaml.load] and the xml2js parser hand back.  The
    properties of a [JObj] are listed in the order in which the engine
    enumerates them, which is the order [Object.keys] reports.  A number
    is kept as an integer: the program never computes with one, it only
    asks for its type and its keys. *)
Inductive JsValue : Type :=
| JUndefined
| JNull
| JBool (b : bool)
| JNum (n : Z)
| JStr (s : string)
| JArr (items : list JsValue)
| JObj (props : list (string * JsValue)).

(** A thrown value: an [Error] object (its [name] and [message]), or a bare
    string, which [validateWithSarif] throws. *)
Inductive Thrown : Type :=
| JsError (name message : string)
| ThrownString (s : string).

Definition Error (message : string) : Thrown := JsError "Error" message.
Definition TypeError (message : string) : Thrown := JsError "TypeError" message.

(** The result of a synchronous library call. *)
Inductive Completion (A : Type) : Type :=
| Normal (a : A)
| Abrupt (e : Thrown).
Arguments Normal {A} a.
Arguments Abrupt {A} e.

Module Js.

(** [String(e)], which a template literal applies to a caught value
    ([Error.prototype.toString] for an error object). *)
Definition describe (e : Thrown) : string :=
  match e with
  | JsError name message =>
      if String.eqb name EmptyString then message
      else if String.eqb message EmptyString then name
      else name +:+ ": " +:+ message
  | ThrownString s => s
  end.

(** [error.message] inside string concatenation: a thrown string has no
    such property, and [undefined] concatenates as the word. *)
Definition message_of (e : Thrown) : string :=
  match e with
  | JsError _ message => message
  | ThrownString _ => "undefined"
  end.

Definition typeof (v : JsValue) : string :=
  match v with
  | JUndefined => "undefined"
  | JNull => "object"
  | JBool _ => "boolean"
  | JNum _ => "number"
  | JStr _ => "string"
  | JArr _ => "object"
  | JObj _ => "object"
  end.

Definition is_null (v : JsValue) : bool :=
  match v with JNull => true | _ => false end.

(** The index keys ["0"], ["1"], ... of an array or a string of length [n]. *)
Definition index_keys (n : nat) : list string :=
  List.map (λ i : nat, pretty i) (seq 0 n).

(** [Object.keys(v)]: a [TypeError] on [undefined] and [null], the own
    enumerable keys otherwise (none for a boolean or a number, the indices
    for a string or an array). *)
Definition Object_keys (v : JsValue) : Completion (list string) :=
  match v with
  | JUndefined | JNull =>
      Abrupt (TypeError "Cannot convert undefined or null to object")
  | JBool _ | JNum _ => Normal []
  | JStr s => Normal (index_keys (String.length s))
  | JArr items => Normal (index_keys (length items))
  | JObj props => Normal (List.map fst props)
  end.

(** [String(v)]. *)
Fixpoint ToString (v : JsValue) : string :=
  match v with
  | JUndefined => "undefined"
  | JNull => "null"
  | JBool b => if b then "true" else "false"
  | JNum n => pretty n
  | JStr s => s
  | JArr items =>
      String.concat ","
        (List.map (λ x, match x with
                        | JUndefined | JNull => EmptyString
                        | _ => ToString x
                        end) items)
  | JObj _ => "[object Object]"
  end.

(** One step of a member expression: [v.k] or [v[i]]. *)
Inductive Accessor : Type :=
| Member (k : string)
| Index (i : nat).

Definition accessor_name (a : Accessor) : string :=
  match a with Member k => k | Index i => pretty i end.

Fixpoint own_property (k : string) (props : list (string * JsValue)) : JsValue :=
  match props with
  | [] => JUndefined
  | (k', v) :: rest => if String.eqb k' k then v else own_property k rest
  end.

(** Reading a member.  On [undefined] and [null] it throws; a missing
    member reads as [undefined].  The member names this program reads
    ([metadata], [versioning], [versions], [version], [release]) are
    inherited by no array or primitive, so on those only an index can
    find something. *)
Definition get (v : JsValue) (a : Accessor) : Completion JsValue :=
  match v with
  | JUndefined =>
      Abrupt (TypeError ("Cannot read properties of undefined (reading '"
                         +:+ accessor_name a +:+ "')"))
  | JNull =>
      Abrupt (TypeError ("Cannot read properties of null (reading '"
                         +:+ accessor_name a +:+ "')"))
  | JObj props => Normal (own_property (accessor_name a) props)
  | JArr items =>
      match a with
      | Index i => Normal (nth i items JUndefined)
      | Member _ => Normal JUndefined
      end
  | JStr s =>
      match a with
      | Index i =>
          Normal (match String.get i s with
                  | Some c => JStr (String c EmptyString)
                  | None => JUndefined
                  end)
      | Member _ => Normal JUndefined
      end
  | JBool _ | JNum _ => Normal JUndefined
  end.

(** A member expression [v.a1.a2...], read left to right. *)
Fixpoint get_path (v : JsValue) (path : list Accessor) : Completion JsValue :=
  match path with
  | [] => Normal v
  | a :: rest =>
      match get v a with
      | Normal v' => get_path v' rest
      | Abrupt e => Abrupt e
      end
  end.

(** The order of [Array.prototype.sort] without a comparator: [undefined]
    last, everything else by the code units of its [String(v)]. *)
Definition sort_leb (x y : JsValue) : bool :=
  match y with
  | JUndefined => true
  | _ => match x with
         | JUndefined => false
         | _ => String.leb (ToString x) (ToString y)
         end
  end.

Definition sort_le (x y : JsValue) : Prop := sort_leb x y = true.

#[global] Instance sort_le_dec x y : Decision (sort_le x y).
Proof. unfold sort_le. apply _. Defined.

(** [items.sort()]: the outcome is fixed by the order above up to the
    placing of elements that print alike; a stable merge sort stands for
    the engine's algorithm. *)
Definition sort (items : list JsValue) : list JsValue :=
  merge_sort sort_le items.

(** [v.sort()] as a method call: only an array has the method among the
    values the parser returns. *)
Definition call_sort (v : JsValue) : Completion (list JsValue) :=
  match v with
  | JArr items => Normal (sort items)
  | JUndefined =>
      Abrupt (TypeError "Cannot read properties of undefined (reading 'sort')")
  | JNull =>
      Abrupt (TypeError "Cannot read properties of null (reading 'sort')")
  | _ => Abrupt (TypeError "sort is not a function")
  end.

(** [items.includes(s)] for a string [s] (SameValueZero: only an equal
    string matches). *)
Definition includes (items : list JsValue) (s : string) : bool :=
  existsb (λ v, match v with JStr t => String.eqb t s | _ => false end) items.

(** [items.join(sep)]. *)
Definition join (sep : string) (items : list JsValue) : string :=
  String.concat sep
    (List.map (λ x, match x with
                    | JUndefined | JNull => EmptyString
                    | _ => ToString x
                    end) items).

End Js.

(** ** Buffers *)

(** Strings here are sequences of bytes holding text in UTF-8; a [Buffer]
    is a sequence of bytes that need not be text. *)
Module Buffer.

(** U+FFFD, the replacement character. *)
Definition replacement : string :=
  Str.chr 239 +:+ Str.chr 191 +:+ Str.chr 189.

(** Where the decoder stands inside a character: the bytes read so far,
    how many are still to come, and the range the next one has to be in. *)
Record Partial : Type := {
  seen : string;
  needed : nat;
  lower : nat;
  upper : nat
}.

Definition idle : Partial :=
  {| seen := EmptyString; needed := 0; lower := 128; upper := 191 |}.

(** A byte met between two characters: a character of one byte, the
    first byte of a longer one, or a byte that starts nothing. *)
Definition lead (b : ascii) : string * Partial :=
  let n := nat_of_ascii b in
  if n <? 128 then (String b EmptyString, idle)
  else if (194 <=? n) && (n <=? 223) then
    (EmptyString,
     {| seen := String b EmptyString; needed := 1; lower := 128; upper := 191 |})
  else if (224 <=? n) && (n <=? 239) then
    (EmptyString,
     {| seen := String b EmptyString; needed := 2;
        lower := if n =? 224 then 160 else 128;
        upper := if n =? 237 then 159 else 191 |})
  else if (240 <=? n) && (n <=? 244) then
    (EmptyString,
     {| seen := String b EmptyString; needed := 3;
        lower := if n =? 240 then 144 else 128;
        upper := if n =? 244 then 143 else 191 |})
  else (replacement, idle).

(** The UTF-8 decoder of the platform: a well-formed character is kept, an
    ill-formed sequence becomes one U+FFFD for each maximal part of it, and
    a character that the input ends in the middle of becomes one U+FFFD. *)
Fixpoint decode (bytes : string) (st : Partial) : string :=
  match bytes with
  | EmptyString => if needed st =? 0 then EmptyString else replacement
  | String b rest =>
      let n := nat_of_ascii b in
      if needed st =? 0 then
        let '(out, st') := lead b in out +:+ decode rest st'
      else if (lower st <=? n) && (n <=? upper st) then
        if needed st =? 1 then
          (seen st +:+ String b EmptyString) +:+ decode rest idle
        else
          decode rest {| seen := seen st +:+ String b EmptyString;
                         needed := needed st - 1; lower := 128; upper := 191 |}
      else
        let '(out, st') := lead b in replacement +:+ (out +:+ decode rest st')
  end.

(** [buffer.toString()]: the whole buffer decoded as UTF-8, on its own. *)
Definition toString (bytes : string) : string := decode bytes idle.

End Buffer.

(** ** The outside world *)

(** What a path of the file system holds.  [existsSync] sees every kind.
    The [content] of a file is its text: the program reads a file as a
    whole and decodes it at once.
    A [File] is a regular file that the process may read and remove.  A
    [Guarded] entry is a regular file too, but the system decides what the
    process may do with it: when [readable] is off, opening it fails
    (a file of another user, EACCES); when [removable] is off, removing it
    fails (a file another process still holds open on Windows, a directory
    without write permission: EPERM, EBUSY, EACCES). *)
Inductive Entry : Type :=
| File (content : string)
| Dir
| Guarded (content : string) (readable removable : bool).

Inductive Color : Type := blue | green | red | yellow.

(** An argument of [console.log] or [console.error]. *)
Inductive LogArg : Type :=
| Text (s : string)
| Caught (e : Thrown).

(** Every action of the program that the outside can observe. *)
Inductive Event : Type :=
| ConsoleLog (args : list LogArg)
| ConsoleError (args : list LogArg)
| StdoutWrite (s : string)
| NetFetch (url : string)
| ProcExec (command : string)
| ProcExecSync (command : string)
| ProcSpawn (file : string) (args : list string) (verbatim : bool)
| FsExists (path : string)
| FsReadFile (path : string)
| FsRm (path : string)
| FsMkdir (path : string)
| ZipExtractAll (target : string)
| FsChmod (path mode : string)
| FsUnlink (path : string)
| FsWriteFile (path content : string)
| FsSymlink (target path : string).

(** The response of [fetch]: the two flags the program reads and the two
    ways it reads the body. *)
Record Response : Type := {
  ok : bool;
  status : Z;
  text : Completion string;
  arrayBuffer : Completion string
}.

(** What a spawned child makes happen in the parent, in the order in which
    the event loop delivers it.  [TimerTick] is a firing of the 100 ms
    interval of the progress indicator; [CloseEvent None] is a child ended
    by a signal (its [code] is [null]).  A [chunk] is the [Buffer] of one
    [data] event: the bytes one read of the pipe brought, cut wherever the
    read ended. *)
Inductive ChildEvent : Type :=
| StdoutData (chunk : string)
| StderrData (chunk : string)
| ErrorEvent (message : string)
| CloseEvent (code : option Z)
| TimerTick.

(** Node, the libraries and the machine.  A call that may fail returns a
    [Completion]; a call that changes the disk returns the new disk too,
    also when it fails half way. *)
Record Env : Type := {
  platform : string;
  path_extname : string → string;
  path_join : list string → string;
  chalk : Color → string → string;
  uuid_v4 : nat → string;
  fetch : string → Completion Response;
  xml2js_parseStringPromise : string → Completion JsValue;
  JSON_parse : string → Completion JsValue;
  yaml_load : string → Completion JsValue;
  child_exec : string → gmap string Entry → Completion (string * string);
  child_execSync : string → gmap string Entry → Completion string;
  child_spawn : string → list string → bool → gmap string Entry →
                Completion (list ChildEvent) * gmap string Entry;
  fs_mkdirSync : string → gmap string Entry → Completion unit * gmap string Entry;
  zip_extractAllTo : string → string → gmap string Entry →
                     Completion unit * gmap string Entry;
  fs_chmodSync : string → string → gmap string Entry →
                 Completion unit * gmap string Entry;
  fs_unlinkSync : string → gmap string Entry → Completion unit * gmap string Entry;
  fs_writeFileSync : string → string → gmap string Entry →
                     Completion unit * gmap string Entry;
  fs_symlinkSync : string → string → gmap string Entry →
                   Completion unit * gmap string Entry
}.

(** The state a call runs in: the disk, the trace of what was done so far,
    and how many identifiers the random source has given out. *)
Record World : Type := {
  fs : gmap string Entry;
  trace : list Event;
  draws : nat
}.

(** How a call ends: it returns, it throws (an async function rejects), or
    the promise it awaits is never settled. *)
Inductive Outcome (A : Type) : Type :=
| Returned (a : A)
| Threw (e : Thrown)
| Hung.
Arguments Returned {A} a.
Arguments Threw {A} e.
Arguments Hung {A}.

(** ** The monad of the program: state and exceptions *)

Definition JS (A : Type) : Type := World → Outcome A * World.

Definition ret {A} (a : A) : JS A := λ w, (Returned a, w).

Definition bind {A B} (m : JS A) (k : A → JS B) : JS B :=
  λ w, match m w with
       | (Returned a, w') => k a w'
       | (Threw e, w') => (Threw e, w')
       | (Hung, w') => (Hung, w')
       end.

Definition throw {A} (e : Thrown) : JS A := λ w, (Threw e, w).

(** [try { body } catch (error) { handler }]. *)
Definition try_catch {A} (body : JS A) (handler : Thrown → JS A) : JS A :=
  λ w, match body w with
       | (Threw e, w') => handler e w'
       | r => r
       end.

Notation "x <- m ;; k" := (bind m (λ x, k))
  (at level 100, m at next level, right associativity,
   format "'[v' x  <-  m  ;;  '/' k ']'").
Notation "m ;;; k" := (bind m (λ _, k))
  (at level 100, right associativity, format "'[v' m  ;;;  '/' k ']'").

Definition lift {A} (c : Completion A) : JS A :=
  match c with
  | Normal a => ret a
  | Abrupt e => throw e
  end.

Definition emit (ev : Event) : JS unit :=
  λ w, (Returned tt, {| fs := fs w; trace := trace w ++ [ev]; draws := draws w |}).

Definition console_log (args : list LogArg) : JS unit := emit (ConsoleLog args).
Definition console_error (args : list LogArg) : JS unit := emit (ConsoleError args).

(** A library call that works on the disk: the call is recorded, the disk
    is replaced by what the call leaves, and a failure is thrown. *)
Definition on_disk {A} (ev : Event)
    (op : gmap string Entry → Completion A * gmap string Entry) : JS A :=
  emit ev ;;;
  λ w, let '(c, disk) := op (fs w) in
       lift c {| fs := disk; trace := trace w; draws := draws w |}.

(** A library call that only looks at the disk. *)
Definition query {A} (ev : Event) (op : gmap string Entry → Completion A) : JS A :=
  on_disk ev (λ disk, (op disk, disk)).

(** *** [fs.existsSync], [fs.readFileSync], [fs.rmSync] *)

Definition exists_on (disk : gmap string Entry) (path : string) : bool :=
  bool_decide (is_Some (disk !! path)).

Definition existsSync (path : string) : JS bool :=
  query (FsExists path) (λ disk, Normal (exists_on disk path)).

(** [readFileSync(path)]: the content of a regular file that may be read. *)
Definition read_from (disk : gmap string Entry) (path : string) : Completion string :=
  match disk !! path with
  | Some (File content) | Some (Guarded content true _) => Normal content
  | Some (Guarded _ false _) =>
      Abrupt (Error ("EACCES: permission denied, open '" +:+ path +:+ "'"))
  | Some Dir => Abrupt (Error "EISDIR: illegal operation on a directory, read")
  | None =>
      Abrupt (Error ("ENOENT: no such file or directory, open '" +:+ path +:+ "'"))
  end.

Definition readFileSync (path : string) : JS string :=
  query (FsReadFile path) (λ disk, read_from disk path).

(** [rmSync(path)] without options: a regular file that may be removed is
    removed; in every other case the call throws and the disk is as it was. *)
Definition rm_from (disk : gmap string Entry) (path : string) :
    Completion unit * gmap string Entry :=
  match disk !! path with
  | Some (File _) | Some (Guarded _ _ true) => (Normal tt, delete path disk)
  | Some (Guarded _ _ false) =>
      (Abrupt (Error ("EPERM: operation not permitted, rm '" +:+ path +:+ "'")),
       disk)
  | Some Dir =>
      (Abrupt (Error ("Path is a directory: rm returned EISDIR (is a directory) "
                      +:+ path)), disk)
  | None =>
      (Abrupt (Error ("ENOENT: no such file or directory, rm '" +:+ path +:+ "'")),
       disk)
  end.

Definition rmSync (path : string) : JS unit :=
  on_disk (FsRm path) (λ disk, rm_from disk path).

(** ** The program *)

Inductive MetaschemaDocumentType : Type := Metaschema | MetaConstraints.
Inductive FileFormat : Type := xml | json | yaml.

(** What [getVersionsFromMaven] returns. *)
Record VersionInfo : Type := {
  versions : list JsValue;
  latestVersion : JsValue
}.

(** A promise under construction: the first [resolve] or [reject] settles
    it, later ones change nothing. *)
Inductive Promise (A : Type) : Type :=
| Pending
| Fulfilled (a : A)
| Rejected (e : Thrown).
Arguments Pending {A}.
Arguments Fulfilled {A} a.
Arguments Rejected {A} e.

Definition resolve {A} (a : A) (p : Promise A) : Promise A :=
  match p with Pending => Fulfilled a | _ => p end.

Definition reject {A} (e : Thrown) (p : Promise A) : Promise A :=
  match p with Pending => Rejected e | _ => p end.

(** Awaiting the promise. *)
Definition await {A} (p : Promise A) : JS A :=
  match p with
  | Fulfilled a => ret a
  | Rejected e => throw e
  | Pending => λ w, (Hung, w)
  end.

(** The local variables of the listeners in [executeMetaschemaCliCommand],
    the interval of the progress indicator ([ticking]: set and not yet
    cleared) and the promise the listeners settle. *)
Record RunState : Type := {
  stdout : string;
  stderr : string;
  loadingIndex : nat;
  ticking : bool;
  settled : Promise (string * string)
}.

Definition MAVEN_METADATA_URL : string :=
  "https://repo1.maven.org/maven2/dev/metaschema/java/metaschema-cli/maven-metadata.xml".

Definition MAVEN_DOWNLOAD_URL (version : string) : string :=
  "https://repo1.maven.org/maven2/dev/metaschema/java/metaschema-cli/"
  +:+ version +:+ "/metaschema-cli-" +:+ version +:+ "-metaschema-cli.zip".

Definition supported_extensions : list string := [".xml"; ".json"; ".yaml"; ".yml"].

Definition loadingGlyph : list string :=
  ["⠋"; "⠙"; "⠹"; "⠸"; "⠼"; "⠴"; "⠦"; "⠧"; "⠇"; "⠏"].

Definition getDocumentType (rootElement : option string) : MetaschemaDocumentType :=
  match rootElement with
  | Some root =>
      if String.eqb root "metaschema-meta-constraints" then MetaConstraints
      else if String.eqb root "METASCHEMA" then Metaschema
      else Metaschema
  | None => Metaschema
  end.

Section Program.

Variable E : Env.

Definition isWindows : bool := bool_decide (platform E = "win32").

Definition js_fetch (url : string) : JS Response :=
  query (NetFetch url) (λ _, fetch E url).

Definition http_error (response : Response) : Thrown :=
  Error ("HTTP error! status: " +:+ pretty (status response)).

(** [result.metadata.versioning[0].versions[0].version] *)
Definition version_path : list Js.Accessor :=
  [Js.Member "metadata"; Js.Member "versioning"; Js.Index 0;
   Js.Member "versions"; Js.Index 0; Js.Member "version"].

(** [result.metadata.versioning[0].release[0]] *)
Definition release_path : list Js.Accessor :=
  [Js.Member "metadata"; Js.Member "versioning"; Js.Index 0;
   Js.Member "release"; Js.Index 0].

(** [.sort()] is called on the list as the index gives it, with no
    comparator. *)
Definition getVersionsFromMaven : JS VersionInfo :=
  try_catch
    (response <- js_fetch MAVEN_METADATA_URL ;;
     (if negb (ok response) then throw (http_error response) else ret tt) ;;;
     xmlData <- lift (text response) ;;
     result <- lift (xml2js_parseStringPromise E xmlData) ;;
     listed <- lift (Js.get_path result version_path) ;;
     versions <- lift (Js.call_sort listed) ;;
     latestVersion <- lift (Js.get_path result release_path) ;;
     ret {| versions := versions; latestVersion := latestVersion |})
    (λ error,
       console_error [Text "Error fetching versions from Maven:"; Caught error] ;;;
       throw error).

(** The [console.log] that follows the [return] in the source is never
    reached and has no counterpart here. *)
Definition downloadFromMaven (version : JsValue) : JS string :=
  let v := Js.ToString version in
  try_catch
    (console_log [Text ("Downloading version " +:+ v +:+ " from "
                        +:+ MAVEN_DOWNLOAD_URL v)] ;;;
     response <- js_fetch (MAVEN_DOWNLOAD_URL v) ;;
     (if negb (ok response) then throw (http_error response) else ret tt) ;;;
     lift (arrayBuffer response))
    (λ error,
       console_error [Text ("Error downloading version " +:+ v +:+ ":");
                      Caught error] ;;;
       throw error).

(** *** Document sniffer *)

Definition parseYamlDocument (fileContent : string) :
    JS (MetaschemaDocumentType * FileFormat) :=
  await
    (let p : Promise (MetaschemaDocumentType * FileFormat) := Pending in
     match yaml_load E fileContent with
     | Abrupt error => reject (Error ("Failed to parse YAML: " +:+ Js.describe error)) p
     | Normal yamlData =>
         let p :=
           if negb (String.eqb (Js.typeof yamlData) "object") || Js.is_null yamlData
           then reject (Error "Invalid YAML structure") p
           else p in
         match Js.Object_keys yamlData with
         | Abrupt error =>
             reject (Error ("Failed to parse YAML: " +:+ Js.describe error)) p
         | Normal keys => resolve (getDocumentType (head keys), yaml) p
         end
     end).

Definition parseXmlDocument (fileContent : string) :
    JS (MetaschemaDocumentType * FileFormat) :=
  try_catch
    (result <- lift (xml2js_parseStringPromise E fileContent) ;;
     keys <- lift (Js.Object_keys result) ;;
     ret (getDocumentType (head keys), xml))
    (λ error, throw (Error ("Failed to parse XML: " +:+ Js.describe error))).

Definition parseJsonDocument (fileContent : string) :
    JS (MetaschemaDocumentType * FileFormat) :=
  try_catch
    (jsonData <- lift (JSON_parse E fileContent) ;;
     keys <- lift (Js.Object_keys jsonData) ;;
     ret (getDocumentType (head keys), json))
    (λ error, throw (Error ("Failed to parse JSON: " +:+ Js.describe error))).

Definition detectMetaschemaDocumentType (filePath : string) :
    JS (MetaschemaDocumentType * FileFormat) :=
  let fileExtension := Str.toLowerCase (path_extname E filePath) in
  if negb (Str.includes supported_extensions fileExtension) then
    throw (Error "Unsupported file format. Only XML YAML and JSON are supported.")
  else
    fileContent <- readFileSync filePath ;;
    if String.eqb fileExtension ".xml" then parseXmlDocument fileContent
    else if String.eqb fileExtension ".json" then parseJsonDocument fileContent
    else parseYamlDocument fileContent.

(** *** Looking for the tool *)

Definition search_command (tool : string) : string :=
  if isWindows then "where " +:+ tool else "which " +:+ tool.

Definition execPromise (command : string) : JS (string * string) :=
  query (ProcExec command) (child_exec E command).

(** [exec(command, (error) => resolve(!error))] *)
Definition checkCommand (command : string) : JS bool :=
  try_catch (execPromise command ;;; ret true) (λ _, ret false).

Definition isMetaschemaCliInstalled : JS bool :=
  let command := search_command "metaschema-cli" in
  isInPath <- checkCommand command ;;
  if isInPath then ret true
  else
    let metaschemaCliInstallPath := path_join E ["."; "metaschema-cli"] in
    existsSync metaschemaCliInstallPath.

Definition isJavaInstalled : JS bool :=
  checkCommand (search_command "java").

(** The [try] block yields the path it returns, or nothing when control
    leaves it at its end or through the empty [catch]. *)
Definition findMetaschemaCliPath : JS string :=
  let command := search_command "metaschema-cli" in
  found <- try_catch
             (result <- execPromise command ;;
              let out := result.1 in
              let paths := Str.split (ascii_of_nat 10) (Str.trim out) in
              if 0 <? length paths then ret (head paths)
              else ret None)
             (λ _, ret None) ;;
  match found with
  | Some path => ret path
  | None => throw (Error "METASCHEMA CLI not found")
  end.

(** *** Installer *)

(** The part of [installMetaschemaCli] after the version is chosen: all
    the steps that touch the machine. *)
Definition install_steps (version : JsValue) : JS unit :=
  console_log [Text "Installing version:";
               Text (chalk E blue (Js.ToString version))] ;;;
  prefix <- query (ProcExecSync "npm config get prefix")
                  (child_execSync E "npm config get prefix") ;;
  let npmPrefix := Str.trim prefix in
  let binPath := if isWindows then npmPrefix else path_join E [npmPrefix; "bin"] in
  let metaschemaCliPath :=
    path_join E [npmPrefix; "lib"; "node_modules"; "metaschema-cli"] in
  let metaschemaCliExecutablePath :=
    path_join E [metaschemaCliPath; "bin"; "metaschema-cli"] in
  on_disk (FsMkdir metaschemaCliPath) (fs_mkdirSync E metaschemaCliPath) ;;;
  console_log [Text "Downloading METASCHEMA CLI..."] ;;;
  zipBuffer <- downloadFromMaven version ;;
  console_log [Text "Extracting METASCHEMA CLI..."] ;;;
  on_disk (ZipExtractAll metaschemaCliPath)
          (zip_extractAllTo E zipBuffer metaschemaCliPath) ;;;
  (if negb isWindows then
     console_log [Text ("Setting executable permissions for CLI at "
                        +:+ metaschemaCliExecutablePath)] ;;;
     on_disk (FsChmod metaschemaCliExecutablePath "755")
             (fs_chmodSync E metaschemaCliExecutablePath "755")
   else ret tt) ;;;
  console_log [Text ("Creating METASCHEMA CLI symlink: metaschema-cli => "
                     +:+ metaschemaCliExecutablePath)] ;;;
  let sourceFile :=
    if isWindows then metaschemaCliExecutablePath +:+ ".bat"
    else metaschemaCliExecutablePath in
  let aliasPath :=
    path_join E [binPath;
                 "metaschema-cli" +:+ (if isWindows then ".bat" else EmptyString)] in
  aliasExists <- existsSync aliasPath ;;
  (if aliasExists then on_disk (FsUnlink aliasPath) (fs_unlinkSync E aliasPath)
   else ret tt) ;;;
  (if isWindows then
     let batchContent :=
       "@echo off" +:+ Str.LF +:+ Str.DQ +:+ sourceFile +:+ Str.DQ +:+ " %*" in
     on_disk (FsWriteFile aliasPath batchContent)
             (fs_writeFileSync E aliasPath batchContent)
   else
     on_disk (FsSymlink sourceFile aliasPath)
             (fs_symlinkSync E sourceFile aliasPath)) ;;;
  console_log [Text ("METASCHEMA CLI installed to " +:+ metaschemaCliPath)] ;;;
  console_log [Text ("Alias created at " +:+ aliasPath)].

(** [version] is the argument, ["latest"] when the caller gives none. *)
Definition installMetaschemaCli (version : string) : JS unit :=
  try_catch
    (info <- getVersionsFromMaven ;;
     if String.eqb version "latest" then install_steps (latestVersion info)
     else if negb (Js.includes (versions info) version) then
       (console_error [Text ("Unknown METASCHEMA version: " +:+ version)] ;;;
        console_error [Text (chalk E blue (Js.join ", " (versions info)))])
     else install_steps (JStr version))
    (λ error,
       throw (Error ("Failed to install METASCHEMA CLI: " +:+ Js.message_of error))).

(** *** Command runner *)

(** The text of [code] in the rejection message. *)
Definition show_code (code : option Z) : string :=
  match code with
  | Some n => pretty n
  | None => "null"
  end.

Definition exit_error (code : option Z) (captured : string) : Thrown :=
  Error ("METASCHEMA CLI process exited with code " +:+ show_code code +:+ ":"
         +:+ Str.LF +:+ captured).

(** One listener call.  A chunk is decoded by itself ([data.toString()])
    and the text is appended.  [showLoader] decides whether [loading]
    holds an interval; the variable is never reset, so the test
    [if (loading)] is the flag itself. *)
Definition on_event (showLoader : bool) (st : RunState) (ev : ChildEvent) :
    JS RunState :=
  match ev with
  | StdoutData chunk =>
      ret {| stdout := stdout st +:+ Buffer.toString chunk; stderr := stderr st;
             loadingIndex := loadingIndex st; ticking := ticking st;
             settled := settled st |}
  | StderrData chunk =>
      ret {| stdout := stdout st; stderr := stderr st +:+ Buffer.toString chunk;
             loadingIndex := loadingIndex st; ticking := ticking st;
             settled := settled st |}
  | TimerTick =>
      if ticking st then
        emit (StdoutWrite (Str.CR +:+ Str.ESC +:+ "[36m"
                           +:+ nth (loadingIndex st) loadingGlyph EmptyString
                           +:+ Str.ESC +:+ "[0m")) ;;;
        ret {| stdout := stdout st; stderr := stderr st;
               loadingIndex := (loadingIndex st + 1) mod length loadingGlyph;
               ticking := true; settled := settled st |}
      else ret st
  | ErrorEvent message =>
      ret {| stdout := stdout st; stderr := stderr st;
             loadingIndex := loadingIndex st;
             ticking := if showLoader then false else ticking st;
             settled :=
               reject (Error ("Failed to start METASCHEMA CLI process: "
                              +:+ message)) (settled st) |}
  | CloseEvent code =>
      (if showLoader then emit (StdoutWrite (Str.CR +:+ Str.ESC +:+ "[K"))
       else ret tt) ;;;
      ret {| stdout := stdout st; stderr := stderr st;
             loadingIndex := loadingIndex st;
             ticking := if showLoader then false else ticking st;
             settled :=
               if bool_decide (code = Some 0%Z)
               then resolve (stdout st, stderr st) (settled st)
               else reject (exit_error code (stderr st)) (settled st) |}
  end.

Fixpoint deliver (showLoader : bool) (events : list ChildEvent) (st : RunState) :
    JS RunState :=
  match events with
  | [] => ret st
  | ev :: rest => st' <- on_event showLoader st ev ;; deliver showLoader rest st'
  end.

(** The arguments of [spawn]: the file, its argument list and the option
    [windowsVerbatimArguments].  On Windows the alias is a batch file, so
    the command interpreter is spawned and given the alias. *)
Definition spawnArgs (metaschemaCliPath : string) (fullArgs : list string) :
    string * list string * bool :=
  if isWindows then ("cmd.exe", "/c" :: metaschemaCliPath :: fullArgs, true)
  else (metaschemaCliPath, fullArgs, false).

(** A rejection of [findMetaschemaCliPath] and an exception thrown while
    the child is set up both reach [reject] through [.catch]; after that
    the promise is in the hands of the listeners.  The caller is resumed
    once the child's events have all been delivered. *)
Definition executeMetaschemaCliCommand
    (command : string) (args : list string) (showLoader : bool) :
    JS (string * string) :=
  metaschemaCliPath <- findMetaschemaCliPath ;;
  let fullArgs := command :: args in
  console_log [Text (chalk E green "metaschema-cli " +:+ chalk E blue command
                     +:+ " " +:+ Str.join " " args)] ;;;
  let '(file, argv, verbatim) := spawnArgs metaschemaCliPath fullArgs in
  events <- on_disk (ProcSpawn file argv verbatim)
                    (child_spawn E file argv verbatim) ;;
  st <- deliver showLoader events
          {| stdout := EmptyString; stderr := EmptyString; loadingIndex := 0;
             ticking := showLoader; settled := Pending |} ;;
  await (settled st).

(** *** Result-log reader *)

Definition draw_uuid : JS string :=
  λ w, (Returned (uuid_v4 E (draws w)),
        {| fs := fs w; trace := trace w; draws := S (draws w) |}).

Definition sarif_log_name (uuid : string) : string :=
  path_join E ["metaschema-cli-sarif-log-" +:+ uuid +:+ ".json"].

(** [readFileSync(tempFile, 'utf8'); rmSync(tempFile); JSON.parse(...)] *)
Definition read_and_remove (tempFile : string) : JS JsValue :=
  sarifOutput <- readFileSync tempFile ;;
  rmSync tempFile ;;;
  lift (JSON_parse E sarifOutput).

(** The [catch] block of the first [try]; [consoleErr] is the value the
    variable holds when control arrives. *)
Definition on_failed_run (tempFile consoleErr : string) (error : Thrown) :
    JS JsValue :=
  console_error [Text (chalk E red (Js.describe error))] ;;;
  present <- existsSync tempFile ;;
  if negb present then throw (ThrownString consoleErr)
  else read_and_remove tempFile.

(** The variable [consoleErr] starts empty and is assigned only after the
    awaited run has resolved: an exception of the run finds it empty, an
    exception of the two statements after the assignment would find the
    captured stderr. *)
Definition validateWithSarif (args : list string) : JS JsValue :=
  uuid <- draw_uuid ;;
  let tempFile := sarif_log_name uuid in
  let sarifArgs :=
    args ++ ["-o"; tempFile; "--sarif-include-pass"; "--show-stack-trace"] in
  let consoleErr := EmptyString in
  λ w,
    match executeMetaschemaCliCommand "validate" sarifArgs false w with
    | (Threw error, w1) => on_failed_run tempFile consoleErr error w1
    | (Hung, w1) => (Hung, w1)
    | (Returned (out, err), w1) =>
        let consoleErr := err in
        match (console_log [Text out] ;;;
               console_error [Text (chalk E red err)]) w1 with
        | (Threw error, w2) => on_failed_run tempFile consoleErr error w2
        | (Hung, w2) => (Hung, w2)
        | (Returned _, w2) =>
            try_catch (read_and_remove tempFile)
              (λ error,
                 throw (Error ("Failed to read or parse SARIF output: "
                               +:+ Js.describe error))) w2
        end
    end.

End Program.

(** ** Vocabulary of the specification *)

(** The Format the specification assigns to an extension. *)
Definition format_of_extension (ext : string) : option FileFormat :=
  if String.eqb ext ".xml" then Some xml
  else if String.eqb ext ".json" then Some json
  else if String.eqb ext ".yaml" then Some yaml
  else if String.eqb ext ".yml" then Some yaml
  else None.

(** The generic parser of each format. *)
Definition parser_of (E : Env) (format : FileFormat) : string → Completion JsValue :=
  match format with
  | xml => xml2js_parseStringPromise E
  | json => JSON_parse E
  | yaml => yaml_load E
  end.

(** The Kind of the root-element table: ConstraintSet is
    [MetaConstraints], Primary is [Metaschema]. *)
Definition kind_of_root (root : string) : MetaschemaDocumentType :=
  if String.eqb root "metaschema-meta-constraints" then MetaConstraints
  else Metaschema.

(** A non-null object in the sense of [typeof]. *)
Definition is_object (v : JsValue) : bool :=
  String.eqb (Js.typeof v) "object" && negb (Js.is_null v).


Fixpoint emitted_stderr (events : list ChildEvent) : string :=
  match events with
  | [] => EmptyString
  | StderrData chunk :: rest => chunk +:+ emitted_stderr rest
  | _ :: rest => emitted_stderr rest
  end.

(** What the runner holds of each stream after these events: every chunk
    decoded by itself, in order. *)
Fixpoint captured_stdout (events : list ChildEvent) : string :=
  match events with
  | [] => EmptyString
  | StdoutData chunk :: rest => Buffer.toString chunk +:+ captured_stdout rest
  | _ :: rest => captured_stdout rest
  end.

Fixpoint captured_stderr (events : list ChildEvent) : string :=
  match events with
  | [] => EmptyString
  | StderrData chunk :: rest => Buffer.toString chunk +:+ captured_stderr rest
  | _ :: rest => captured_stderr rest
  end.


(** An event that settles nothing: output or a tick of the indicator. *)
Definition is_output (ev : ChildEvent) : bool :=
  match ev with
  | StdoutData _ | StderrData _ | TimerTick => true
  | ErrorEvent _ | CloseEvent _ => false
  end.

(** The path holds a regular file. *)
Definition holds_file (disk : gmap string Entry) (path : string) : bool :=
  match disk !! path with
  | Some (File _) | Some (Guarded _ _ _) => true
  | _ => false
  end.

(** The system lets the process read and remove what the path holds. *)
Definition unguarded (disk : gmap string Entry) (path : string) : bool :=
  match disk !! path with
  | Some (Guarded _ readable removable) => readable && removable
  | _ => true
  end.

(** The world after some more events were recorded, the rest untouched. *)
Definition recorded (events : list Event) (w : World) : World :=
  {| fs := fs w; trace := trace w ++ events; draws := draws w |}.

(** The name [validateWithSarif] gives its log in world [w]. *)
Definition tempFile_of (E : Env) (w : World) : string :=
  sarif_log_name E (uuid_v4 E (draws w)).

(** ** A concrete machine for the examples *)

Module Posix.

(** [path.extname] of Node for POSIX paths: the loop of [lib/path.js]
    walks the path from its end; [i] is the index of the code unit in
    hand, [None] stands for the index [-1]. *)
Fixpoint scan (from_end : list ascii) (startDot : option nat) (stop : option nat)
    (matchedSlash : bool) (preDotState : Z) :
    option nat * nat * option nat * Z :=
  match from_end with
  | [] => (startDot, 0, stop, preDotState)
  | code :: before =>
      let i := length before in
      if Ascii.eqb code "/" then
        if negb matchedSlash then (startDot, S i, stop, preDotState)
        else scan before startDot stop matchedSlash preDotState
      else
        let '(stop, matchedSlash) :=
          match stop with
          | None => (Some (S i), false)
          | Some _ => (stop, matchedSlash)
          end in
        if Ascii.eqb code "." then
          match startDot with
          | None => scan before (Some i) stop matchedSlash preDotState
          | Some _ => scan before startDot stop matchedSlash 1%Z
          end
        else
          match startDot with
          | Some _ => scan before startDot stop matchedSlash (-1)%Z
          | None => scan before startDot stop matchedSlash preDotState
          end
  end.

Definition extname (path : string) : string :=
  match scan (rev (list_ascii_of_string path)) None None true 0%Z with
  | (Some startDot, startPart, Some stop, preDotState) =>
      if (preDotState =? 0)%Z
         || ((preDotState =? 1)%Z && (startDot =? stop - 1) && (startDot =? startPart + 1))
      then EmptyString
      else String.substring startDot (stop - startDot) path
  | _ => EmptyString
  end.

(** [path.join] on segments that hold no separator and no [..]: empty
    segments and [.] drop out, the rest is joined by [/]; nothing left is
    the current directory. *)
Definition join (segments : list string) : string :=
  match List.filter (λ seg, negb (String.eqb seg EmptyString || String.eqb seg ".")) segments with
  | [] => "."
  | kept => String.concat "/" kept
  end.

End Posix.

Module Fixture.

Definition untouched {A} (c : Completion A) (disk : gmap string Entry) :
    Completion A * gmap string Entry := (c, disk).

(** A Linux machine: colours are off, identifiers are numbered, the disk
    operations of the installer succeed without being modelled further.
    What varies between the examples is given as argument. *)
Definition machine
    (fetch_ : string → Completion Response)
    (parse_xml parse_json parse_yaml : string → Completion JsValue)
    (exec_ : string → Completion (string * string))
    (spawn_ : gmap string Entry → Completion (list ChildEvent) * gmap string Entry) :
    Env :=
  {| platform := "linux";
     path_extname := Posix.extname;
     path_join := Posix.join;
     chalk := λ _ s, s;
     uuid_v4 := λ n, "id" +:+ pretty n;
     fetch := fetch_;
     xml2js_parseStringPromise := parse_xml;
     JSON_parse := parse_json;
     yaml_load := parse_yaml;
     child_exec := λ command _, exec_ command;
     child_execSync := λ _ _, Normal "/usr/local";
     child_spawn := λ _ _ _, spawn_;
     fs_mkdirSync := λ _, untouched (Normal tt);
     zip_extractAllTo := λ _ _, untouched (Normal tt);
     fs_chmodSync := λ _ _, untouched (Normal tt);
     fs_unlinkSync := λ _, untouched (Normal tt);
     fs_writeFileSync := λ _ _, untouched (Normal tt);
     fs_symlinkSync := λ _ _, untouched (Normal tt) |}.

Definition offline (url : string) : Completion Response :=
  Abrupt (TypeError "fetch failed").

Definition no_parser (content : string) : Completion JsValue :=
  Abrupt (JsError "SyntaxError" "Unexpected token").

Definition not_found (command : string) : Completion (string * string) :=
  Abrupt (Error ("Command failed: " +:+ command)).

Definition found_at (path : string) (command : string) : Completion (string * string) :=
  Normal (path +:+ Str.LF, EmptyString).

Definition never_spawned (disk : gmap string Entry) :
    Completion (list ChildEvent) * gmap string Entry :=
  (Abrupt (Error "spawn ENOENT"), disk).

(** A parser that knows one more text than [otherwise] does. *)
Definition parses (known : string) (v : JsValue)
    (otherwise : string → Completion JsValue) (content : string) :
    Completion JsValue :=
  if String.eqb content known then Normal v else otherwise content.

(** A disk, an empty trace, no identifier drawn yet. *)
Definition world (disk : gmap string Entry) : World :=
  {| fs := disk; trace := []; draws := 0 |}.

(** The version index with the versions listed in the order given. *)
Definition maven_metadata (listed : list string) (release : string) : JsValue :=
  JObj [("metadata",
         JObj [("groupId", JArr [JStr "dev.metaschema.java"]);
               ("artifactId", JArr [JStr "metaschema-cli"]);
               ("versioning",
                JArr [JObj [("latest", JArr [JStr release]);
                            ("release", JArr [JStr release]);
                            ("versions",
                             JArr [JObj [("version", JArr (List.map JStr listed))]])]])])].

Definition serves (body : string) (url : string) : Completion Response :=
  Normal {| ok := true; status := 200; text := Normal body;
            arrayBuffer := Normal body |}.

(** The index lists 0.9.0 before 0.10.0, as Maven does. *)
Definition index_machine : Env :=
  machine (serves "<metadata/>")
          (parses "<metadata/>" (maven_metadata ["0.9.0"; "0.10.0"] "0.10.0")
                  no_parser)
          no_parser no_parser not_found never_spawned.

(** The tool is installed; a validation prints [boom] on stderr, exits
    with code 1 and writes no log. *)
Definition failing_run (disk : gmap string Entry) :
    Completion (list ChildEvent) * gmap string Entry :=
  (Normal [StderrData "boom"; CloseEvent (Some 1%Z)], disk).

Definition failing_machine : Env :=
  machine offline no_parser no_parser no_parser
          (found_at "/usr/local/bin/metaschema-cli") failing_run.

(** The tool is installed; a validation prints on both streams, writes
    its log under the name the first identifier gives and exits with
    code 0. *)
Definition passing_run (disk : gmap string Entry) :
    Completion (list ChildEvent) * gmap string Entry :=
  (Normal [StdoutData "checked "; StderrData "warning"; StdoutData "1 file";
           CloseEvent (Some 0%Z)],
   <["metaschema-cli-sarif-log-id0.json" := File "{}"]> disk).

Definition passing_machine : Env :=
  machine offline no_parser (parses "{}" (JObj []) no_parser) no_parser
          (found_at "/usr/local/bin/metaschema-cli") passing_run.

(** The search command ends well and prints nothing. *)
Definition silent_search (command : string) : Completion (string * string) :=
  Normal (EmptyString, EmptyString).

Definition silent_machine : Env :=
  machine offline no_parser no_parser no_parser silent_search never_spawned.

(** A machine whose parsers know a few minimal documents. *)
Definition sniffing_machine : Env :=
  machine offline
          (parses "<METASCHEMA/>" (JObj [("METASCHEMA", JStr EmptyString)])
                  no_parser)
          (parses "1" (JNum 1) (parses "null" JNull no_parser))
          (parses "{metaschema-meta-constraints: {}}"
                  (JObj [("metaschema-meta-constraints", JObj [])])
                  (parses "1" (JNum 1) no_parser))
          not_found never_spawned.

Definition disk_with (path content : string) : gmap string Entry :=
  {[ path := File content ]}.

End Fixture.

Example extname_samples :
  List.map Posix.extname
    ["doc.XML"; "a/b.c/model.yaml"; ".xml"; "notes"; "dir.d/"; ".."; "x."; "a.tar.gz"]
  = [".XML"; ".yaml"; EmptyString; EmptyString; ".d"; EmptyString; "."; ".gz"].
Proof. reflexivity. Qed.

(** ** The rest of the module *)

(** The helper [isValidFileType] keeps its own list of extensions. *)
Definition validExtensions : list string := [".xml"; ".json"; ".yaml"; ".yml"].

Definition isValidFileType (E : Env) (filePath : string) : bool :=
  Str.includes validExtensions (Str.toLowerCase (path_extname E filePath)).

(** How [run] leaves the process: it goes on, or [process.exit(code)]
    ended it. *)
Inductive Exit : Type :=
| Continues
| Exits (code : Z).

Section Frontend.

Variable E : Env.

(** [program.parse(process.argv)]: the dispatch of commander to the
    registered commands, whatever they do. *)
Variable program_parse : list string → JS unit.

(** [argv] is [process.argv].  The promise chain of the second branch is
    followed to its end; its [.catch] also receives what the dispatch
    throws, the first branch has no handler. *)
Definition run (argv : list string) : JS Exit :=
  let args := drop 2 argv in
  let command := head args in
  if bool_decide (command = Some "use") then
    program_parse argv ;;; ret Continues
  else
    try_catch
      (installed <- isMetaschemaCliInstalled E ;;
       (if negb installed then installMetaschemaCli E "latest" else ret tt) ;;;
       program_parse argv ;;;
       ret Continues)
      (λ error,
         console_error [Text "Error:"; Caught error] ;;;
         ret (Exits 1)).

End Frontend.

(** ** More vocabulary *)

(** The name of a format in the messages of the sniffer. *)
Definition format_label (format : FileFormat) : string :=
  match format with
  | xml => "XML"
  | json => "JSON"
  | yaml => "YAML"
  end.

(** The call comes back: it returns or throws. *)
Definition never_hangs {A} (m : JS A) : Prop := ∀ w, (m w).1 ≠ Hung.

(** The version [installMetaschemaCli] goes on with for a selector. *)
Definition chosen_version (info : VersionInfo) (selector : string) : JsValue :=
  if String.eqb selector "latest" then latestVersion info else JStr selector.

(** The places of an installation under the prefix npm reports. *)
Definition install_root (E : Env) (npmPrefix : string) : string :=
  path_join E [npmPrefix; "lib"; "node_modules"; "metaschema-cli"].

Definition install_executable (E : Env) (npmPrefix : string) : string :=
  path_join E [install_root E npmPrefix; "bin"; "metaschema-cli"].

Definition alias_path (E : Env) (npmPrefix : string) : string :=
  path_join E
    [if isWindows E then npmPrefix else path_join E [npmPrefix; "bin"];
     "metaschema-cli" +:+ (if isWindows E then ".bat" else EmptyString)].

(** No character of the string is white space. *)
Definition solid (s : string) : Prop :=
  Forall (λ c, Str.is_space c = false) (list_ascii_of_string s).

(** The text begins with a character that is not white space. *)
Definition begins_solid (s : string) : Prop :=
  match s with
  | String c _ => Str.is_space c = false
  | EmptyString => False
  end.

(** The text holds no line feed. *)
Definition one_line (s : string) : Prop :=
  Forall (λ c, c ≠ ascii_of_nat 10) (list_ascii_of_string s).

(** What a complete installation records after the request for the
    index, on a platform other than Windows: the order of the steps as
    [installMetaschemaCli] takes them.  [replaced] says whether an alias
    was found and removed. *)
Definition posix_install_events (E : Env) (version : JsValue) (npmPrefix : string)
    (replaced : bool) : list Event :=
  let root := install_root E npmPrefix in
  let exe := install_executable E npmPrefix in
  let alias := path_join E [path_join E [npmPrefix; "bin"]; "metaschema-cli"] in
  let url := MAVEN_DOWNLOAD_URL (Js.ToString version) in
  [ConsoleLog [Text "Installing version:"; Text (chalk E blue (Js.ToString version))];
   ProcExecSync "npm config get prefix";
   FsMkdir root;
   ConsoleLog [Text "Downloading METASCHEMA CLI..."];
   ConsoleLog [Text ("Downloading version " +:+ Js.ToString version
                     +:+ " from " +:+ url)];
   NetFetch url;
   ConsoleLog [Text "Extracting METASCHEMA CLI..."];
   ZipExtractAll root;
   ConsoleLog [Text ("Setting executable permissions for CLI at " +:+ exe)];
   FsChmod exe "755";
   ConsoleLog [Text ("Creating METASCHEMA CLI symlink: metaschema-cli => " +:+ exe)];
   FsExists alias]
  ++ (if replaced then [FsUnlink alias] else [])
  ++ [FsSymlink exe alias;
      ConsoleLog [Text ("METASCHEMA CLI installed to " +:+ root)];
      ConsoleLog [Text ("Alias created at " +:+ alias)]].

(** The text of the batch file that stands for the alias on Windows. *)
Definition batch_shim (exe : string) : string :=
  "@echo off" +:+ Str.LF +:+ Str.DQ +:+ (exe +:+ ".bat") +:+ Str.DQ +:+ " %*".

(** The same on Windows: no permission is set, and the alias is a batch
    file beside the prefix. *)
Definition windows_install_events (E : Env) (version : JsValue) (npmPrefix : string)
    (replaced : bool) : list Event :=
  let root := install_root E npmPrefix in
  let exe := install_executable E npmPrefix in
  let alias := path_join E [npmPrefix; "metaschema-cli.bat"] in
  let url := MAVEN_DOWNLOAD_URL (Js.ToString version) in
  [ConsoleLog [Text "Installing version:"; Text (chalk E blue (Js.ToString version))];
   ProcExecSync "npm config get prefix";
   FsMkdir root;
   ConsoleLog [Text "Downloading METASCHEMA CLI..."];
   ConsoleLog [Text ("Downloading version " +:+ Js.ToString version
                     +:+ " from " +:+ url)];
   NetFetch url;
   ConsoleLog [Text "Extracting METASCHEMA CLI..."];
   ZipExtractAll root;
   ConsoleLog [Text ("Creating METASCHEMA CLI symlink: metaschema-cli => " +:+ exe)];
   FsExists alias]
  ++ (if replaced then [FsUnlink alias] else [])
  ++ [FsWriteFile alias (batch_shim exe);
      ConsoleLog [Text ("METASCHEMA CLI installed to " +:+ root)];
      ConsoleLog [Text ("Alias created at " +:+ alias)]].

(** Two states of the listeners that captured the same. *)
Definition same_capture (st1 st2 : RunState) : Prop :=
  stdout st1 = stdout st2 ∧ stderr st1 = stderr st2 ∧ settled st1 = settled st2.

(** The world in which the run of [validateWithSarif] starts: one
    identifier was drawn. *)
Definition drawn (w : World) : World :=
  {| fs := fs w; trace := trace w; draws := S (draws w) |}.

(** The arguments [validateWithSarif] hands to the tool after the
    sub-command. *)
Definition sarif_args (E : Env) (w : World) (args : list string) : list string :=
  args ++ ["-o"; tempFile_of E w; "--sarif-include-pass"; "--show-stack-trace"].

(** The run inside [validateWithSarif]. *)
Definition validate_run (E : Env) (args : list string) (w : World) :
    Outcome (string * string) * World :=
  executeMetaschemaCliCommand E "validate" (sarif_args E w args) false (drawn w).

(** How [run] ends once a dispatch was made from inside the promise
    chain: what the dispatch throws is printed and ends the process with
    status 1. *)
Definition guarded_dispatch (parse : list string → JS unit) (argv : list string)
    (w : World) : Outcome Exit * World :=
  match parse argv w with
  | (Returned _, w') => (Returned Continues, w')
  | (Threw e, w') =>
      (Returned (Exits 1), recorded [ConsoleError [Text "Error:"; Caught e]] w')
  | (Hung, w') => (Hung, w')
  end.

(** ** More machines for the examples *)

Module Scenario.

(** The index is served, every other address answers 404. *)
Definition index_only (url : string) : Completion Response :=
  if String.eqb url MAVEN_METADATA_URL then Fixture.serves "<metadata/>" url
  else Normal {| ok := false; status := 404; text := Normal "Not Found";
                 arrayBuffer := Normal "Not Found" |}.

Definition archive_missing_machine : Env :=
  Fixture.machine index_only
    (Fixture.parses "<metadata/>"
       (Fixture.maven_metadata ["0.9.0"; "0.10.0"] "0.10.0") Fixture.no_parser)
    Fixture.no_parser Fixture.no_parser Fixture.not_found Fixture.never_spawned.

(** The index answers 503. *)
Definition unavailable (url : string) : Completion Response :=
  Normal {| ok := false; status := 503; text := Normal "Service Unavailable";
            arrayBuffer := Normal "Service Unavailable" |}.

Definition unavailable_machine : Env :=
  Fixture.machine unavailable Fixture.no_parser Fixture.no_parser Fixture.no_parser
    Fixture.not_found Fixture.never_spawned.

(** A Windows machine on which everything works; [where] lists two
    matches with the line ends of Windows. *)
Definition where_output : string :=
  "C:/npm/metaschema-cli.bat" +:+ Str.CR +:+ Str.LF
  +:+ "D:/tools/metaschema-cli.bat" +:+ Str.CR +:+ Str.LF.

Definition windows_with (listing : string) : Env :=
  {| platform := "win32";
     path_extname := Posix.extname;
     path_join := Posix.join;
     chalk := λ _ s, s;
     uuid_v4 := λ n, "id" +:+ pretty n;
     fetch := Fixture.serves "<metadata/>";
     xml2js_parseStringPromise :=
       Fixture.parses "<metadata/>"
         (Fixture.maven_metadata ["0.9.0"; "0.10.0"] "0.10.0") Fixture.no_parser;
     JSON_parse := Fixture.no_parser;
     yaml_load := Fixture.no_parser;
     child_exec := λ _ _, Normal (listing, EmptyString);
     child_execSync := λ _ _, Normal "C:/npm";
     child_spawn := λ _ _ _, Fixture.never_spawned;
     fs_mkdirSync := λ _, Fixture.untouched (Normal tt);
     zip_extractAllTo := λ _ _, Fixture.untouched (Normal tt);
     fs_chmodSync := λ _ _, Fixture.untouched (Normal tt);
     fs_unlinkSync := λ path disk, (Normal tt, delete path disk);
     fs_writeFileSync := λ path content disk,
                           (Normal tt, <[path := File content]> disk);
     fs_symlinkSync := λ _ _, Fixture.untouched (Normal tt) |}.

Definition windows_machine : Env := windows_with where_output.

(** What [where metaschema-cli] prints on a Windows machine that has the
    tool twice on its search path: one match to a line, in the order of
    the search path, every line ended by carriage return and line feed. *)
Definition two_installations : string :=
  "C:\Program Files\nodejs\metaschema-cli.bat" +:+ Str.CR +:+ Str.LF
  +:+ "C:\Users\dev\AppData\Roaming\npm\metaschema-cli.bat"
  +:+ Str.CR +:+ Str.LF.

(** A Linux machine on which only the search for the tool under its
    exact command line succeeds. *)
Definition which_only (command : string) : Completion (string * string) :=
  if String.eqb command "which metaschema-cli"
  then Normal ("/usr/local/bin/metaschema-cli" +:+ Str.LF, EmptyString)
  else Abrupt (Error ("Command failed: " +:+ command)).

Definition which_machine : Env :=
  Fixture.machine Fixture.offline Fixture.no_parser Fixture.no_parser
    Fixture.no_parser which_only Fixture.never_spawned.

(** The spawn fails, and the close event follows the error event. *)
Definition spawn_fails (disk : gmap string Entry) :
    Completion (list ChildEvent) * gmap string Entry :=
  (Normal [ErrorEvent "spawn EACCES"; CloseEvent (Some (-13)%Z)], disk).

Definition broken_tool_machine : Env :=
  Fixture.machine Fixture.offline Fixture.no_parser Fixture.no_parser
    Fixture.no_parser (Fixture.found_at "/usr/local/bin/metaschema-cli") spawn_fails.

(** The tool writes and never closes. *)
Definition stuck (disk : gmap string Entry) :
    Completion (list ChildEvent) * gmap string Entry :=
  (Normal [StdoutData "working"; TimerTick; TimerTick], disk).

Definition stuck_machine : Env :=
  Fixture.machine Fixture.offline Fixture.no_parser Fixture.no_parser
    Fixture.no_parser (Fixture.found_at "/usr/local/bin/metaschema-cli") stuck.

(** The validation finds errors: it exits with code 1 after it wrote its
    log. *)
Definition findings_run (disk : gmap string Entry) :
    Completion (list ChildEvent) * gmap string Entry :=
  (Normal [StderrData "2 errors"; CloseEvent (Some 1%Z)],
   <["metaschema-cli-sarif-log-id0.json" := File "{}"]> disk).

Definition findings_machine : Env :=
  Fixture.machine Fixture.offline Fixture.no_parser
    (Fixture.parses "{}" (JObj []) Fixture.no_parser) Fixture.no_parser
    (Fixture.found_at "/usr/local/bin/metaschema-cli") findings_run.

(** The same two runs with a log that is no JSON. *)
Definition garbled_pass (disk : gmap string Entry) :
    Completion (list ChildEvent) * gmap string Entry :=
  (Normal [CloseEvent (Some 0%Z)],
   <["metaschema-cli-sarif-log-id0.json" := File "{"]> disk).

Definition garbled_fail (disk : gmap string Entry) :
    Completion (list ChildEvent) * gmap string Entry :=
  (Normal [CloseEvent (Some 1%Z)],
   <["metaschema-cli-sarif-log-id0.json" := File "{"]> disk).

Definition garbled_pass_machine : Env :=
  Fixture.machine Fixture.offline Fixture.no_parser Fixture.no_parser
    Fixture.no_parser (Fixture.found_at "/usr/local/bin/metaschema-cli") garbled_pass.

Definition garbled_fail_machine : Env :=
  Fixture.machine Fixture.offline Fixture.no_parser Fixture.no_parser
    Fixture.no_parser (Fixture.found_at "/usr/local/bin/metaschema-cli") garbled_fail.

(** The tool exits with code 0 and writes no log. *)
Definition forgetful_run (disk : gmap string Entry) :
    Completion (list ChildEvent) * gmap string Entry :=
  (Normal [CloseEvent (Some 0%Z)], disk).

Definition forgetful_machine : Env :=
  Fixture.machine Fixture.offline Fixture.no_parser Fixture.no_parser
    Fixture.no_parser (Fixture.found_at "/usr/local/bin/metaschema-cli") forgetful_run.

(** A dispatch that prints the arguments it was given. *)
Definition echo_parse (argv : list string) : JS unit :=
  console_log [Text (Str.join " " argv)].






End Scenario.

(** * Properties *)

(** A decidable side condition on concrete data, settled by evaluation. *)
Ltac by_evaluation :=
  match goal with |- ?P => apply (bool_decide_unpack P) end; vm_compute; exact I.

(** One more step of [getVersionsFromMaven]: split on the library call
    [c]; its failure ends in the [catch] block, which logs and rethrows. *)
Ltac step_or_rethrow c :=
  destruct c; cbn -[Js.get_path Js.call_sort]; [| by rewrite <- app_assoc].

(** ** Strings *)

Lemma split_nonempty sep s : 0 < length (Str.split sep s).
Proof.
  induction s as [|c r IH]; simpl; [lia|].
  destruct (Ascii.eqb c sep); simpl; [lia|].
  destruct (Str.split sep r); simpl; lia.
Qed.

Lemma split_head sep s : ∃ p rest, Str.split sep s = p :: rest.
Proof.
  pose proof (split_nonempty sep s) as H.
  destruct (Str.split sep s) as [|p rest]; simpl in H; [lia | eauto].
Qed.

(** ** The monad and the disk *)

Lemma emit_eq ev w : emit ev w = (Returned tt, recorded [ev] w).
Proof. reflexivity. Qed.

Lemma on_disk_eq {A} ev (op : gmap string Entry → Completion A * gmap string Entry) w :
  on_disk ev op w =
  (match (op (fs w)).1 with Normal a => Returned a | Abrupt e => Threw e end,
   {| fs := (op (fs w)).2; trace := trace w ++ [ev]; draws := draws w |}).
Proof.
  unfold on_disk, bind, emit; simpl.
  destruct (op (fs w)) as [[a|e] disk]; reflexivity.
Qed.

Lemma query_eq {A} ev (op : gmap string Entry → Completion A) w :
  query ev op w =
  (match op (fs w) with Normal a => Returned a | Abrupt e => Threw e end,
   recorded [ev] w).
Proof. unfold query. rewrite on_disk_eq. reflexivity. Qed.

Lemma existsSync_eq path w :
  existsSync path w = (Returned (exists_on (fs w) path), recorded [FsExists path] w).
Proof. unfold existsSync. by rewrite query_eq. Qed.

Lemma readFileSync_file path content w :
  fs w !! path = Some (File content) →
  readFileSync path w = (Returned content, recorded [FsReadFile path] w).
Proof.
  intros Hfile. unfold readFileSync. rewrite query_eq.
  unfold read_from. by rewrite Hfile.
Qed.

(** ** Document sniffer *)

Lemma format_of_extension_supported ext format :
  format_of_extension ext = Some format →
  ext ∈ supported_extensions ∧
  (format = xml ∧ ext = ".xml" ∨ format = json ∧ ext = ".json"
   ∨ format = yaml ∧ (ext = ".yaml" ∨ ext = ".yml")).
Proof.
  unfold format_of_extension, supported_extensions.
  destruct (String.eqb_spec ext ".xml") as [->|_];
    [intros [= <-]; split; [set_solver | naive_solver] |].
  destruct (String.eqb_spec ext ".json") as [->|_];
    [intros [= <-]; split; [set_solver | naive_solver] |].
  destruct (String.eqb_spec ext ".yaml") as [->|_];
    [intros [= <-]; split; [set_solver | naive_solver] |].
  destruct (String.eqb_spec ext ".yml") as [->|_];
    [intros [= <-]; split; [set_solver | naive_solver] |].
  done.
Qed.

Lemma kind_of_root_spec root :
  getDocumentType (Some root) = kind_of_root root.
Proof.
  unfold getDocumentType, kind_of_root.
  by repeat destruct (String.eqb _ _).
Qed.

Lemma kind_of_root_constraints root :
  kind_of_root root = MetaConstraints ↔ root = "metaschema-meta-constraints".
Proof.
  unfold kind_of_root.
  destruct (String.eqb_spec root "metaschema-meta-constraints"); naive_solver.
Qed.

Lemma kind_of_root_primary root :
  kind_of_root root = Metaschema ↔ root ≠ "metaschema-meta-constraints".
Proof.
  unfold kind_of_root.
  destruct (String.eqb_spec root "metaschema-meta-constraints"); naive_solver.
Qed.

Lemma detect_supported E filePath w content :
  Str.toLowerCase (path_extname E filePath) ∈ supported_extensions →
  fs w !! filePath = Some (File content) →
  detectMetaschemaDocumentType E filePath w =
  (let ext := Str.toLowerCase (path_extname E filePath) in
   if String.eqb ext ".xml" then parseXmlDocument E content
   else if String.eqb ext ".json" then parseJsonDocument E content
   else parseYamlDocument E content) (recorded [FsReadFile filePath] w).
Proof.
  intros Hext Hfile. unfold detectMetaschemaDocumentType, Str.includes.
  rewrite bool_decide_eq_true_2 by done. simpl.
  unfold bind. by rewrite (readFileSync_file _ _ _ Hfile).
Qed.

(** C4. A file with a supported extension whose content parses to a
    document with root element (first top-level key) [root] is classified
    with the Format of its extension, [.yml] counting as yaml, and with
    Kind ConstraintSet exactly when [root] is metaschema-meta-constraints,
    Primary otherwise; this holds for all three formats. *)
Theorem classify_by_extension_and_root
    E filePath w content format root body others :
  format_of_extension (Str.toLowerCase (path_extname E filePath)) = Some format →
  fs w !! filePath = Some (File content) →
  parser_of E format content = Normal (JObj ((root, body) :: others)) →
  detectMetaschemaDocumentType E filePath w
  = (Returned (kind_of_root root, format), recorded [FsReadFile filePath] w)
  ∧ (kind_of_root root = MetaConstraints ↔ root = "metaschema-meta-constraints")
  ∧ (kind_of_root root = Metaschema ↔ root ≠ "metaschema-meta-constraints").
Proof.
  intros Hformat Hfile Hparse.
  destruct (format_of_extension_supported _ _ Hformat) as [Hin Hcases].
  split; [| split; [apply kind_of_root_constraints | apply kind_of_root_primary]].
  rewrite (detect_supported _ _ _ _ Hin Hfile). simpl.
    destruct Hcases as [[-> ->] | [[-> ->] | [-> [-> | ->]]]]; simpl in *.
    + unfold parseXmlDocument, try_catch, bind, lift. rewrite Hparse.
      cbn -[getDocumentType]. by rewrite kind_of_root_spec.
    + unfold parseJsonDocument, try_catch, bind, lift. rewrite Hparse.
      cbn -[getDocumentType]. by rewrite kind_of_root_spec.
    + unfold parseYamlDocument. rewrite Hparse.
      cbn -[getDocumentType]. by rewrite kind_of_root_spec.
    + unfold parseYamlDocument. rewrite Hparse.
      cbn -[getDocumentType]. by rewrite kind_of_root_spec.
Qed.

Lemma classify_by_extension_and_root_witness :
  detectMetaschemaDocumentType Fixture.sniffing_machine "a.yml"
    (Fixture.world (Fixture.disk_with "a.yml" "{metaschema-meta-constraints: {}}"))
  = (Returned (kind_of_root "metaschema-meta-constraints", yaml),
     recorded [FsReadFile "a.yml"]
       (Fixture.world (Fixture.disk_with "a.yml" "{metaschema-meta-constraints: {}}")))
  ∧ (kind_of_root "metaschema-meta-constraints" = MetaConstraints
     ↔ "metaschema-meta-constraints" = "metaschema-meta-constraints")
  ∧ (kind_of_root "metaschema-meta-constraints" = Metaschema
     ↔ "metaschema-meta-constraints" ≠ "metaschema-meta-constraints").
Proof.
  apply (classify_by_extension_and_root Fixture.sniffing_machine "a.yml" _
           "{metaschema-meta-constraints: {}}" yaml
           "metaschema-meta-constraints" (JObj []) []).
  - reflexivity.
  - apply lookup_singleton_eq.
  - reflexivity.
Defined.

(** C5, as the code has it.  A path whose extension, put in lower case,
    is none of .xml, .json, .yaml, .yml is rejected with the
    Unsupported-Format error, and the world is left as it was: the file is
    not read (nothing is added to the trace). *)
Theorem unsupported_extension_rejected E filePath w :
  Str.toLowerCase (path_extname E filePath) ∉ supported_extensions →
  detectMetaschemaDocumentType E filePath w
  = (Threw (Error "Unsupported file format. Only XML YAML and JSON are supported."), w).
Proof.
  intros Hext. unfold detectMetaschemaDocumentType, Str.includes.
  by rewrite bool_decide_eq_false_2.
Qed.

Lemma unsupported_extension_rejected_witness :
  detectMetaschemaDocumentType Fixture.sniffing_machine "notes.txt"
    (Fixture.world (Fixture.disk_with "notes.txt" "<METASCHEMA/>"))
  = (Threw (Error "Unsupported file format. Only XML YAML and JSON are supported."),
     Fixture.world (Fixture.disk_with "notes.txt" "<METASCHEMA/>")).
Proof.
  apply (unsupported_extension_rejected Fixture.sniffing_machine "notes.txt").
  by_evaluation.
Defined.

(** C5, as the specification words it, fails: the extension of doc.XML
    is .XML, which is none of the four, yet the file is read and
    classified. *)
Lemma uppercase_extension_is_read :
  path_extname Fixture.sniffing_machine "doc.XML" = ".XML"
  ∧ (".XML" ∉ supported_extensions)
  ∧ detectMetaschemaDocumentType Fixture.sniffing_machine "doc.XML"
      (Fixture.world (Fixture.disk_with "doc.XML" "<METASCHEMA/>"))
    = (Returned (Metaschema, xml),
       recorded [FsReadFile "doc.XML"]
         (Fixture.world (Fixture.disk_with "doc.XML" "<METASCHEMA/>"))).
Proof.
  split; [reflexivity|]. split.
  - by_evaluation.
  - rewrite (detect_supported _ _ _ "<METASCHEMA/>");
      [reflexivity | by_evaluation
       | apply lookup_singleton_eq].
Qed.

Lemma yaml_rejects_non_object E content v w :
  yaml_load E content = Normal v →
  is_object v = false →
  parseYamlDocument E content w = (Threw (Error "Invalid YAML structure"), w).
Proof.
  intros Hload Hobj. unfold parseYamlDocument. rewrite Hload.
  destruct v; try discriminate Hobj; reflexivity.
Qed.

(** C10, as the code has it. A .json file whose content parses to a value
    on which [Object.keys] yields no key (a number, a boolean, an empty
    object, array or string; not [null], which [Object.keys] refuses) is
    classified (Primary, json): the root name is undefined and falls into
    the default of the Kind table.  A YAML file whose content loads, and
    loads as anything but a non-null object, is rejected with
    Invalid YAML structure. *)
Theorem keyless_json_defaults_but_yaml_rejects E filePath w content v :
  fs w !! filePath = Some (File content) →
  (Str.toLowerCase (path_extname E filePath) = ".json" →
   JSON_parse E content = Normal v →
   Js.Object_keys v = Normal [] →
   detectMetaschemaDocumentType E filePath w
   = (Returned (Metaschema, json), recorded [FsReadFile filePath] w))
  ∧ (format_of_extension (Str.toLowerCase (path_extname E filePath)) = Some yaml →
     yaml_load E content = Normal v →
     is_object v = false →
     detectMetaschemaDocumentType E filePath w
     = (Threw (Error "Invalid YAML structure"), recorded [FsReadFile filePath] w)).
Proof.
  intros Hfile. split.
  - intros Hext Hparse Hkeys.
    rewrite (detect_supported _ _ _ content); [| rewrite Hext; set_solver | done].
    rewrite Hext. simpl.
    unfold parseJsonDocument, try_catch, bind, lift. rewrite Hparse. simpl.
    by rewrite Hkeys.
  - intros Hformat Hload Hobj.
    destruct (format_of_extension_supported _ _ Hformat) as [Hin Hcases].
    rewrite (detect_supported _ _ _ content Hin Hfile).
    destruct Hcases as [[[=] _] | [[[=] _] | [_ [-> | ->]]]]; simpl;
      by apply yaml_rejects_non_object with v.
Qed.

Lemma keyless_json_defaults_but_yaml_rejects_witness :
  detectMetaschemaDocumentType Fixture.sniffing_machine "a.json"
    (Fixture.world (Fixture.disk_with "a.json" "1"))
  = (Returned (Metaschema, json),
     recorded [FsReadFile "a.json"] (Fixture.world (Fixture.disk_with "a.json" "1")))
  ∧ detectMetaschemaDocumentType Fixture.sniffing_machine "a.yaml"
      (Fixture.world (Fixture.disk_with "a.yaml" "1"))
    = (Threw (Error "Invalid YAML structure"),
       recorded [FsReadFile "a.yaml"] (Fixture.world (Fixture.disk_with "a.yaml" "1"))).
Proof.
  split.
  - apply (proj1 (keyless_json_defaults_but_yaml_rejects Fixture.sniffing_machine
                    "a.json" _ "1" (JNum 1) (lookup_singleton_eq _ _)));
      reflexivity.
  - apply (proj2 (keyless_json_defaults_but_yaml_rejects Fixture.sniffing_machine
                    "a.yaml" _ "1" (JNum 1) (lookup_singleton_eq _ _)));
      reflexivity.
Defined.

(** [null] has no keys to enumerate either, but [Object.keys] refuses it:
    a .json file holding [null] is not classified, it is a parse error.
    And a YAML file whose content does not load, so does not parse to a
    non-null object, is a parse error too, not an invalid structure. *)
Lemma null_json_and_unloadable_yaml_depart :
  JSON_parse Fixture.sniffing_machine "null" = Normal JNull
  ∧ detectMetaschemaDocumentType Fixture.sniffing_machine "a.json"
      (Fixture.world (Fixture.disk_with "a.json" "null"))
    = (Threw (Error "Failed to parse JSON: TypeError: Cannot convert undefined or null to object"),
       recorded [FsReadFile "a.json"]
         (Fixture.world (Fixture.disk_with "a.json" "null")))
  ∧ yaml_load Fixture.sniffing_machine "a: b: c"
    = Abrupt (JsError "SyntaxError" "Unexpected token")
  ∧ detectMetaschemaDocumentType Fixture.sniffing_machine "a.yaml"
      (Fixture.world (Fixture.disk_with "a.yaml" "a: b: c"))
    = (Threw (Error "Failed to parse YAML: SyntaxError: Unexpected token"),
       recorded [FsReadFile "a.yaml"]
         (Fixture.world (Fixture.disk_with "a.yaml" "a: b: c"))).
Proof.
  split; [reflexivity|]. split; [|split; [reflexivity|]].
  - rewrite (detect_supported _ _ _ "null");
      [reflexivity | by_evaluation | apply lookup_singleton_eq].
  - rewrite (detect_supported _ _ _ "a: b: c");
      [reflexivity | by_evaluation | apply lookup_singleton_eq].
Qed.

(** ** Looking for the tool *)

Lemma search_command_platform E tool :
  search_command E tool
  = if bool_decide (platform E = "win32") then "where " +:+ tool else "which " +:+ tool.
Proof. reflexivity. Qed.

Lemma checkCommand_eq E command w :
  checkCommand E command w
  = (Returned (match child_exec E command (fs w) with
               | Normal _ => true
               | Abrupt _ => false
               end),
     recorded [ProcExec command] w).
Proof.
  unfold checkCommand, try_catch, bind, execPromise. rewrite query_eq.
  by destruct (child_exec E command (fs w)).
Qed.

(** C9. [isMetaschemaCliInstalled] always answers.  It runs the search
    command of the platform for the tool, where metaschema-cli on Windows
    and which metaschema-cli elsewhere, and looks for an entry
    metaschema-cli in the current directory only when the search failed.
    It answers true exactly when the search succeeds or the entry exists:
    a miss on the search path alone does not make it answer false. *)
Theorem installed_iff_on_path_or_local E w :
  ∃ b : bool,
    isMetaschemaCliInstalled E w
    = (Returned b,
       recorded
         (ProcExec (if bool_decide (platform E = "win32")
                    then "where metaschema-cli" else "which metaschema-cli")
          :: match child_exec E (if bool_decide (platform E = "win32")
                                 then "where metaschema-cli"
                                 else "which metaschema-cli") (fs w) with
             | Normal _ => []
             | Abrupt _ => [FsExists (path_join E ["."; "metaschema-cli"])]
             end) w)
    ∧ (b = true ↔
       (∃ out, child_exec E (if bool_decide (platform E = "win32")
                             then "where metaschema-cli"
                             else "which metaschema-cli") (fs w) = Normal out)
       ∨ is_Some (fs w !! path_join E ["."; "metaschema-cli"])).
Proof.
  unfold isMetaschemaCliInstalled, bind. rewrite checkCommand_eq.
  rewrite search_command_platform.
  change ("where " +:+ "metaschema-cli") with "where metaschema-cli".
  change ("which " +:+ "metaschema-cli") with "which metaschema-cli".
  destruct (child_exec E _ (fs w)) as [out|e] eqn:Hexec.
  - exists true. split; [done|]. split; [eauto | done].
  - rewrite existsSync_eq. cbn [orb recorded fs trace draws]. eexists. split.
    + unfold recorded; cbn [fs trace draws]. by rewrite <- app_assoc.
    + unfold exists_on. rewrite bool_decide_eq_true.
      split; [by right | by intros [[out [=]] | ?]].
Qed.

(** On a machine where only which metaschema-cli finds the tool, the
    answer is true after that one command; where the search fails, the
    entry in the current directory decides. *)
Lemma installed_iff_on_path_or_local_witness :
  isMetaschemaCliInstalled Scenario.which_machine (Fixture.world ∅)
  = (Returned true, recorded [ProcExec "which metaschema-cli"] (Fixture.world ∅))
  ∧ isMetaschemaCliInstalled Fixture.index_machine
      (Fixture.world (Fixture.disk_with "metaschema-cli" "#!/bin/sh"))
    = (Returned true,
       recorded [ProcExec "which metaschema-cli"; FsExists "metaschema-cli"]
         (Fixture.world (Fixture.disk_with "metaschema-cli" "#!/bin/sh")))
  ∧ isMetaschemaCliInstalled Fixture.index_machine (Fixture.world ∅)
    = (Returned false,
       recorded [ProcExec "which metaschema-cli"; FsExists "metaschema-cli"]
         (Fixture.world ∅)).
Proof.
  split; [|split].
  - destruct (installed_iff_on_path_or_local Scenario.which_machine (Fixture.world ∅))
      as (b & Hcall & Hb).
    rewrite Hcall. f_equal. f_equal. apply Hb. left. by eexists.
  - destruct (installed_iff_on_path_or_local Fixture.index_machine
                (Fixture.world (Fixture.disk_with "metaschema-cli" "#!/bin/sh")))
      as (b & Hcall & Hb).
    rewrite Hcall. f_equal. f_equal. apply Hb. right. by eexists.
  - destruct (installed_iff_on_path_or_local Fixture.index_machine (Fixture.world ∅))
      as (b & Hcall & Hb).
    rewrite Hcall. f_equal. f_equal. destruct b; [|done].
    destruct (proj1 Hb eq_refl) as [[out [=]] | [entry [=]]].
Defined.

Lemma locate_eq E w :
  findMetaschemaCliPath E w
  = (match child_exec E (search_command E "metaschema-cli") (fs w) with
     | Normal (out, _) =>
         match Str.split (ascii_of_nat 10) (Str.trim out) with
         | first :: _ => Returned first
         | [] => Threw (Error "METASCHEMA CLI not found")
         end
     | Abrupt _ => Threw (Error "METASCHEMA CLI not found")
     end,
     recorded [ProcExec (search_command E "metaschema-cli")] w).
Proof.
  unfold findMetaschemaCliPath, try_catch, bind, execPromise. rewrite query_eq.
  destruct (child_exec E _ (fs w)) as [[out err]|e]; [|done]. simpl.
  pose proof (split_nonempty (ascii_of_nat 10) (Str.trim out)) as Hlen.
  destruct (Str.split _ _) as [|first rest]; simpl in *; [lia | done].
Qed.

(** What the code keeps of C8: a search that fails, as the search commands
    do when they find nothing, is reported as Not-Found, and a search that
    succeeds yields the first line of its trimmed output. *)
Lemma locate_search_error E w e :
  child_exec E (search_command E "metaschema-cli") (fs w) = Abrupt e →
  findMetaschemaCliPath E w
  = (Threw (Error "METASCHEMA CLI not found"),
     recorded [ProcExec (search_command E "metaschema-cli")] w).
Proof. intros H. by rewrite locate_eq, H. Qed.

Lemma locate_first_line E w out err :
  child_exec E (search_command E "metaschema-cli") (fs w) = Normal (out, err) →
  ∃ first rest,
    Str.split (ascii_of_nat 10) (Str.trim out) = first :: rest
    ∧ findMetaschemaCliPath E w
      = (Returned first, recorded [ProcExec (search_command E "metaschema-cli")] w).
Proof.
  intros H. rewrite locate_eq, H.
  destruct (split_head (ascii_of_nat 10) (Str.trim out)) as (first & rest & Hsplit).
  rewrite Hsplit. eauto.
Qed.

(** The guard [paths.length > 0] never fails: after a search that
    succeeded the function returns, whatever was printed. *)
Lemma locate_guard_is_vacuous E w out err :
  child_exec E (search_command E "metaschema-cli") (fs w) = Normal (out, err) →
  ∃ path, (findMetaschemaCliPath E w).1 = Returned path.
Proof.
  intros H. destruct (locate_first_line E w out err H) as (first & rest & _ & Heq).
  rewrite Heq. eauto.
Qed.

(** A search that ends well and prints nothing, which is not what the
    search commands do when they find nothing, yields the empty string
    as the path. *)
Example silent_search_yields_empty_path :
  child_exec Fixture.silent_machine
    (search_command Fixture.silent_machine "metaschema-cli") ∅
  = Normal (EmptyString, EmptyString)
  ∧ findMetaschemaCliPath Fixture.silent_machine (Fixture.world ∅)
    = (Returned EmptyString,
       recorded [ProcExec "which metaschema-cli"] (Fixture.world ∅)).
Proof. split; reflexivity. Qed.

(** C8 at the failing input: on Windows, where metaschema-cli lists two
    installations, one to a line, with the line ends of Windows.  The
    first path produced is the first line; what the function returns is
    that line with the carriage return of its line end still attached,
    which is the path of no file. *)
Theorem where_listing_keeps_carriage_return :
  child_exec (Scenario.windows_with Scenario.two_installations)
    "where metaschema-cli" ∅
  = Normal ("C:\Program Files\nodejs\metaschema-cli.bat" +:+ Str.CR +:+ Str.LF
            +:+ "C:\Users\dev\AppData\Roaming\npm\metaschema-cli.bat"
            +:+ Str.CR +:+ Str.LF,
            EmptyString)
  ∧ findMetaschemaCliPath (Scenario.windows_with Scenario.two_installations)
      (Fixture.world ∅)
    = (Returned ("C:\Program Files\nodejs\metaschema-cli.bat" +:+ Str.CR),
       recorded [ProcExec "where metaschema-cli"] (Fixture.world ∅))
  ∧ (findMetaschemaCliPath (Scenario.windows_with Scenario.two_installations)
       (Fixture.world ∅)).1
    ≠ Returned "C:\Program Files\nodejs\metaschema-cli.bat".
Proof. split; [reflexivity|]. split; [reflexivity | discriminate]. Qed.

(** ** The order of the default sort *)







Lemma sort_strings_leb s t : Js.sort_le (JStr s) (JStr t) ↔ String.leb s t = true.
Proof. reflexivity. Qed.

(** ** Installer *)

Lemma getVersions_eq E w :
  getVersionsFromMaven E w
  = match fetch E MAVEN_METADATA_URL with
    | Abrupt e =>
        (Threw e,
         recorded [NetFetch MAVEN_METADATA_URL;
                   ConsoleError [Text "Error fetching versions from Maven:"; Caught e]] w)
    | Normal response =>
        match
          (if ok response then
             match text response with
             | Abrupt e => Abrupt e
             | Normal xmlData =>
                 match xml2js_parseStringPromise E xmlData with
                 | Abrupt e => Abrupt e
                 | Normal result =>
                     match Js.get_path result version_path with
                     | Abrupt e => Abrupt e
                     | Normal listed =>
                         match Js.call_sort listed with
                         | Abrupt e => Abrupt e
                         | Normal sorted =>
                             match Js.get_path result release_path with
                             | Abrupt e => Abrupt e
                             | Normal release =>
                                 Normal {| versions := sorted; latestVersion := release |}
                             end
                         end
                     end
                 end
             end
           else Abrupt (http_error response))
        with
        | Normal info => (Returned info, recorded [NetFetch MAVEN_METADATA_URL] w)
        | Abrupt e =>
            (Threw e,
             recorded [NetFetch MAVEN_METADATA_URL;
                       ConsoleError [Text "Error fetching versions from Maven:"; Caught e]] w)
        end
    end.
Proof.
  unfold getVersionsFromMaven, try_catch, bind, js_fetch. rewrite query_eq.
  unfold recorded.
  step_or_rethrow (fetch E MAVEN_METADATA_URL).
  match goal with |- context [ok ?r] => rename r into response end.
  step_or_rethrow (ok response).
  step_or_rethrow (text response).
  match goal with |- context [xml2js_parseStringPromise E ?x] =>
    step_or_rethrow (xml2js_parseStringPromise E x) end.
  match goal with |- context [Js.get_path ?r version_path] =>
    rename r into result end.
  step_or_rethrow (Js.get_path result version_path).
  match goal with |- context [Js.call_sort ?l] => step_or_rethrow (Js.call_sort l) end.
  destruct (Js.get_path result release_path);
    cbn -[Js.get_path Js.call_sort]; [done | by rewrite <- app_assoc].
Qed.

(** Listing the versions does nothing but the one request. *)
Lemma getVersions_returned_world E w info w1 :
  getVersionsFromMaven E w = (Returned info, w1) →
  w1 = recorded [NetFetch MAVEN_METADATA_URL] w.
Proof.
  rewrite getVersions_eq.
  destruct (fetch E MAVEN_METADATA_URL) as [response|e]; [|by intros [=]].
  match goal with |- context [match ?c with Normal _ => _ | Abrupt _ => _ end] =>
    destruct c end; by intros [=].
Qed.



(** The selector latest is resolved to the release of the index. *)
Lemma latest_resolves_to_release E w info w1 :
  getVersionsFromMaven E w = (Returned info, w1) →
  installMetaschemaCli E "latest" w
  = try_catch (install_steps E (latestVersion info))
      (λ error,
         throw (Error ("Failed to install METASCHEMA CLI: " +:+ Js.message_of error))) w1.
Proof.
  intros Hlist. unfold installMetaschemaCli, try_catch, bind. by rewrite Hlist.
Qed.




(** ** Command runner *)

Lemma append_assoc (a b c : string) : (a +:+ b) +:+ c = a +:+ (b +:+ c).
Proof.
  induction a as [|x a IH]; [done|].
  change (String x ((a +:+ b) +:+ c) = String x (a +:+ (b +:+ c))).
  by rewrite IH.
Qed.

Lemma append_empty (a : string) : a +:+ EmptyString = a.
Proof.
  induction a as [|x a IH]; [done|].
  change (String x (a +:+ EmptyString) = String x a). by rewrite IH.
Qed.

Lemma captured_stdout_cons ev rest :
  captured_stdout (ev :: rest) = captured_stdout [ev] +:+ captured_stdout rest.
Proof. destruct ev; simpl; by rewrite ?append_empty. Qed.

Lemma captured_stderr_cons ev rest :
  captured_stderr (ev :: rest) = captured_stderr [ev] +:+ captured_stderr rest.
Proof. destruct ev; simpl; by rewrite ?append_empty. Qed.

(** A chunk or a tick goes to its buffer or to the indicator and settles
    nothing. *)
Lemma on_event_output showLoader st ev w :
  is_output ev = true →
  ∃ st' w',
    on_event showLoader st ev w = (Returned st', w')
    ∧ stdout st' = stdout st +:+ captured_stdout [ev]
    ∧ stderr st' = stderr st +:+ captured_stderr [ev]
    ∧ settled st' = settled st.
Proof.
  destruct ev as [chunk|chunk|message|code|]; intros [=]; simpl.
  - eexists _, _. split; [reflexivity|]. simpl. by rewrite !append_empty.
  - eexists _, _. split; [reflexivity|]. simpl. by rewrite !append_empty.
  - destruct (ticking st); eexists _, _; (split; [reflexivity|]); simpl;
      by rewrite !append_empty.
Qed.

(** No listener changes a promise that is settled. *)
Lemma on_event_settled showLoader st ev w :
  settled st ≠ Pending →
  ∃ st' w',
    on_event showLoader st ev w = (Returned st', w') ∧ settled st' = settled st.
Proof.
  intros Hset.
  destruct ev as [chunk|chunk|message|code|]; simpl.
  - by eexists _, _.
  - by eexists _, _.
  - eexists _, _. split; [reflexivity|]. simpl. by destruct (settled st).
  - destruct showLoader; eexists _, _; (split; [reflexivity|]); simpl;
      destruct (settled st); try done; by case_bool_decide.
  - destruct (ticking st); by eexists _, _.
Qed.

(** Output and ticks fill the two buffers and settle nothing. *)
Lemma deliver_output showLoader pre :
  Forall (λ ev, is_output ev = true) pre →
  ∀ st w, ∃ st' w',
    deliver showLoader pre st w = (Returned st', w')
    ∧ stdout st' = stdout st +:+ captured_stdout pre
    ∧ stderr st' = stderr st +:+ captured_stderr pre
    ∧ settled st' = settled st.
Proof.
  induction 1 as [|ev pre Hev _ IH]; intros st w.
  - exists st, w. simpl. by rewrite !append_empty.
  - destruct (on_event_output showLoader st ev w Hev)
      as (st1 & w1 & Hstep & Hout1 & Herr1 & Hset1).
    destruct (IH st1 w1) as (st' & w' & Hrest & Hout & Herr & Hset).
    exists st', w'. cbn [deliver]. unfold bind. rewrite Hstep, Hrest.
    rewrite Hout, Herr, Hset, Hout1, Herr1, Hset1.
    rewrite (captured_stdout_cons ev pre), (captured_stderr_cons ev pre).
    by rewrite !append_assoc.
Qed.

(** Once settled, the promise stays as it is. *)
Lemma deliver_settled showLoader post :
  ∀ st w, settled st ≠ Pending →
  ∃ st' w', deliver showLoader post st w = (Returned st', w')
            ∧ settled st' = settled st.
Proof.
  induction post as [|ev post IH]; intros st w Hset; [by exists st, w|].
  destruct (on_event_settled showLoader st ev w Hset) as (st1 & w1 & Hstep & Hset1).
  destruct (IH st1 w1) as (st' & w' & Hrest & Hset'); [by rewrite Hset1|].
  exists st', w'. simpl. unfold bind. rewrite Hstep, Hrest.
  by rewrite Hset', Hset1.
Qed.

Lemma deliver_app showLoader pre post :
  ∀ st w,
    deliver showLoader (pre ++ post) st w
    = bind (deliver showLoader pre st) (deliver showLoader post) w.
Proof.
  induction pre as [|ev pre IH]; intros st w; [reflexivity|].
  cbn [app deliver]. unfold bind.
  destruct (on_event showLoader st ev w) as [[st'|e|] w']; [|reflexivity..].
  apply IH.
Qed.



(** The decoder at work: a whole character is kept; the two parts of a
    character cut in the middle are one U+FFFD each; a surrogate encoded in
    three bytes is three; an ill-formed sequence gives way to the text
    that follows it. *)
Example decode_samples :
  Buffer.toString "€" = "€"
  ∧ Buffer.toString (Str.chr 226 +:+ Str.chr 130) = Buffer.replacement
  ∧ Buffer.toString (Str.chr 172) = Buffer.replacement
  ∧ Buffer.toString (Str.chr 237 +:+ Str.chr 160 +:+ Str.chr 128)
    = Buffer.replacement +:+ Buffer.replacement +:+ Buffer.replacement
  ∧ Buffer.toString ("a" +:+ Str.chr 226 +:+ "(b")
    = "a" +:+ Buffer.replacement +:+ "(b".
Proof. repeat split; reflexivity. Qed.

(** Text of one-byte characters is text in every chunk. *)
Lemma decode_one_byte_characters (s : string) :
  Forall (λ b, nat_of_ascii b < 128) (list_ascii_of_string s) →
  Buffer.toString s = s.
Proof.
  unfold Buffer.toString.
  induction s as [|b s IH]; intros Hlow; [reflexivity|].
  cbn [list_ascii_of_string] in Hlow. apply Forall_cons in Hlow as [Hb Hs].
  cbn [Buffer.decode Buffer.needed Buffer.idle Nat.eqb]. unfold Buffer.lead.
  cbv zeta. rewrite (proj2 (Nat.ltb_lt _ _) Hb).
  change (String b (Buffer.decode s Buffer.idle) = String b s).
  by rewrite IH.
Qed.





(** ** Result-log reader *)

(** What [validateWithSarif] hands to the command runner in world [w]. *)
Lemma validate_eq E args w :
  validateWithSarif E args w
  = let w0 := {| fs := fs w; trace := trace w; draws := S (draws w) |} in
    let tempFile := tempFile_of E w in
    match executeMetaschemaCliCommand E "validate"
            (args ++ ["-o"; tempFile; "--sarif-include-pass"; "--show-stack-trace"])
            false w0 with
    | (Threw error, w1) => on_failed_run E tempFile EmptyString error w1
    | (Hung, w1) => (Hung, w1)
    | (Returned (out, err), w1) =>
        try_catch (read_and_remove E tempFile)
          (λ error,
             throw (Error ("Failed to read or parse SARIF output: "
                           +:+ Js.describe error)))
          (recorded [ConsoleLog [Text out]; ConsoleError [Text (chalk E red err)]] w1)
    end.
Proof.
  unfold validateWithSarif, bind at 1, draw_uuid, tempFile_of. cbv zeta.
  destruct (executeMetaschemaCliCommand E _ _ _ _) as [[[out err]|e|] w1];
    try reflexivity.
  unfold bind, console_log, console_error, emit, recorded; simpl.
  by rewrite <- app_assoc.
Qed.

Lemma holds_file_recorded events w path :
  holds_file (fs (recorded events w)) path = holds_file (fs w) path.
Proof. reflexivity. Qed.

(** The three steps of the reader, one after the other. *)
Lemma read_and_remove_eq E path w :
  read_and_remove E path w
  = match read_from (fs w) path with
    | Abrupt e => (Threw e, recorded [FsReadFile path] w)
    | Normal content =>
        match rm_from (fs w) path with
        | (Abrupt e, disk) =>
            (Threw e, {| fs := disk; trace := trace w ++ [FsReadFile path; FsRm path];
                         draws := draws w |})
        | (Normal _, disk) =>
            (match JSON_parse E content with
             | Normal v => Returned v
             | Abrupt e => Threw e
             end,
             {| fs := disk; trace := trace w ++ [FsReadFile path; FsRm path];
                draws := draws w |})
        end
    end.
Proof.
  unfold read_and_remove, bind at 1, readFileSync. rewrite query_eq.
  destruct (read_from (fs w) path) as [content|e]; [|reflexivity].
  unfold bind at 1, rmSync. rewrite on_disk_eq. cbn [recorded fs trace draws].
  destruct (rm_from (fs w) path) as [[[]|e] disk]; cbn [fst snd].
  - rewrite <- app_assoc. by destruct (JSON_parse E content).
  - by rewrite <- app_assoc.
Qed.

(** Reading, removing and parsing leaves no file behind, however it ends,
    when the system lets the file be read and removed. *)
Lemma read_and_remove_clears E path w :
  unguarded (fs w) path = true →
  holds_file (fs (read_and_remove E path w).2) path = false.
Proof.
  rewrite read_and_remove_eq. unfold read_from, rm_from, holds_file, unguarded.
  destruct (fs w !! path) as [[content| |content [] []]|] eqn:Hentry;
    cbn; intros Hfree; try done; by rewrite ?Hentry, ?lookup_delete_eq.
Qed.


Lemma try_catch_rethrow_world {A} (body : JS A) (wrap : Thrown → Thrown) w :
  (try_catch body (λ error, throw (wrap error)) w).2 = (body w).2.
Proof. unfold try_catch, throw. by destruct (body w) as [[a|e|] w']. Qed.


Lemma on_failed_run_eq E path consoleErr error w :
  on_failed_run E path consoleErr error w
  = let w' := recorded [ConsoleError [Text (chalk E red (Js.describe error))];
                        FsExists path] w in
    if exists_on (fs w) path then read_and_remove E path w'
    else (Threw (ThrownString consoleErr), w').
Proof.
  unfold on_failed_run, bind at 1, console_error. rewrite emit_eq.
  unfold bind at 1. rewrite existsSync_eq. cbn [recorded fs trace draws].
  destruct (exists_on (fs w) path); cbn [negb]; unfold throw, recorded;
    cbn [fs trace draws]; by rewrite <- app_assoc.
Qed.

Lemma on_failed_run_clears E path consoleErr error w :
  unguarded (fs w) path = true →
  holds_file (fs (on_failed_run E path consoleErr error w).2) path = false.
Proof.
  intros Hfree. rewrite on_failed_run_eq. cbv zeta.
  destruct (exists_on _ path) eqn:Hpresent.
  - by apply read_and_remove_clears.
  - unfold exists_on in Hpresent. apply bool_decide_eq_false in Hpresent.
    unfold holds_file. cbn [snd recorded fs].
    destruct (fs w !! path) eqn:Hentry; [|done]. by destruct Hpresent.
Qed.





(** The successful run of the example did write its log, and the call
    returned what the log held. *)
Example passing_run_returns_log :
  (validateWithSarif Fixture.passing_machine ["doc.xml"] (Fixture.world ∅)).1
  = Returned (JObj [])
  ∧ tempFile_of Fixture.passing_machine (Fixture.world ∅)
    = "metaschema-cli-sarif-log-id0.json".
Proof. split; reflexivity. Qed.

(** If the run left neither a directory nor a guarded file under the
    name, nothing at all is under it afterwards: [existsSync] answers
    false. *)
Lemma no_entry_survives E args w :
  (validateWithSarif E args w).1 ≠ Hung →
  unguarded (fs (validate_run E args w).2) (tempFile_of E w) = true →
  fs (validateWithSarif E args w).2 !! tempFile_of E w ≠ Some Dir →
  exists_on (fs (validateWithSarif E args w).2) (tempFile_of E w) = false.
Proof.
  intros Hback Hfree Hdir.
  assert (holds_file (fs (validateWithSarif E args w).2) (tempFile_of E w) = false)
    as Hfile.
  { revert Hback Hfree. rewrite validate_eq. unfold validate_run, sarif_args, drawn.
    cbv zeta.
    destruct (executeMetaschemaCliCommand E _ _ _ _) as [[[out err]|error|] w1];
      intros Hback Hfree; [| by apply on_failed_run_clears | done].
    rewrite try_catch_rethrow_world. by apply read_and_remove_clears. }
  unfold holds_file in Hfile. unfold exists_on. apply bool_decide_eq_false.
  intros [[content| |content readable removable] Hentry]; rewrite Hentry in *; done.
Qed.

(** In the [catch] block of the first [try] the variable [consoleErr]
    still holds the empty string: whatever made the run fail, and whatever
    the child wrote on stderr, the value thrown when no log exists is the
    empty string. *)
Lemma failed_run_without_log_throws_empty E args w error w1 :
  executeMetaschemaCliCommand E "validate"
    (args ++ ["-o"; tempFile_of E w; "--sarif-include-pass"; "--show-stack-trace"])
    false {| fs := fs w; trace := trace w; draws := S (draws w) |}
  = (Threw error, w1) →
  exists_on (fs w1) (tempFile_of E w) = false →
  (validateWithSarif E args w).1 = Threw (ThrownString EmptyString).
Proof.
  intros Hrun Habsent. rewrite validate_eq. cbv zeta. rewrite Hrun.
  unfold on_failed_run, bind at 1, console_error. rewrite emit_eq.
  unfold bind at 1. rewrite existsSync_eq. cbn [recorded fs].
  by rewrite Habsent.
Qed.

(** C1 at the failing input: the tool prints boom on stderr, exits with
    code 1 and writes no log.  The run fails with the Process error that
    carries boom, no log exists, and the call throws the empty string:
    the stderr of the run is not what it propagates. *)
Theorem failed_run_drops_captured_stderr :
  (executeMetaschemaCliCommand Fixture.failing_machine "validate"
     (["doc.xml"] ++ ["-o"; tempFile_of Fixture.failing_machine (Fixture.world ∅);
                      "--sarif-include-pass"; "--show-stack-trace"])
     false {| fs := ∅; trace := []; draws := 1 |}).1
  = Threw (exit_error (Some 1%Z) "boom")
  ∧ emitted_stderr [StderrData "boom"; CloseEvent (Some 1%Z)] = "boom"
  ∧ exists_on (fs (validateWithSarif Fixture.failing_machine ["doc.xml"]
                     (Fixture.world ∅)).2)
              (tempFile_of Fixture.failing_machine (Fixture.world ∅)) = false
  ∧ (validateWithSarif Fixture.failing_machine ["doc.xml"] (Fixture.world ∅)).1
    = Threw (ThrownString EmptyString)
  ∧ ThrownString EmptyString ≠ ThrownString "boom".
Proof.
  split; [reflexivity|]. split; [reflexivity|]. split; [reflexivity|].
  split; [reflexivity | discriminate].
Qed.

(** * Further properties *)

(** ** Calls that come back and calls that only observe *)

Lemma never_hangs_ret {A} (a : A) : never_hangs (ret a).
Proof. by intros w. Qed.

Lemma never_hangs_throw {A} e : never_hangs (@throw A e).
Proof. by intros w. Qed.

Lemma never_hangs_lift {A} (c : Completion A) : never_hangs (lift c).
Proof. by destruct c; intros w. Qed.

Lemma never_hangs_emit ev : never_hangs (emit ev).
Proof. by intros w. Qed.

Lemma never_hangs_on_disk {A} ev
    (op : gmap string Entry → Completion A * gmap string Entry) :
  never_hangs (on_disk ev op).
Proof. intros w. rewrite on_disk_eq. simpl. by destruct ((op (fs w)).1). Qed.

Lemma never_hangs_query {A} ev (op : gmap string Entry → Completion A) :
  never_hangs (query ev op).
Proof. apply never_hangs_on_disk. Qed.

Lemma never_hangs_bind {A B} (m : JS A) (k : A → JS B) :
  never_hangs m → (∀ a, never_hangs (k a)) → never_hangs (bind m k).
Proof.
  intros Hm Hk w. unfold bind. specialize (Hm w).
  destruct (m w) as [[a|e|] w']; [apply Hk | done | done].
Qed.

Lemma never_hangs_try_catch {A} (body : JS A) handler :
  never_hangs body → (∀ e, never_hangs (handler e)) →
  never_hangs (try_catch body handler).
Proof.
  intros Hm Hh w. unfold try_catch. specialize (Hm w).
  destruct (body w) as [[a|e|] w']; [done | apply Hh | done].
Qed.

Lemma never_hangs_if {A} (b : bool) (m1 m2 : JS A) :
  never_hangs m1 → never_hangs m2 → never_hangs (if b then m1 else m2).
Proof. by destruct b. Qed.

Ltac comes_back :=
  repeat first
    [ apply never_hangs_ret | apply never_hangs_throw | apply never_hangs_lift
    | apply never_hangs_emit | apply never_hangs_query | apply never_hangs_on_disk
    | apply never_hangs_try_catch; [| intros ?]
    | apply never_hangs_bind; [| intros ?]
    | apply never_hangs_if
    | match goal with |- never_hangs (match ?x with _ => _ end) => destruct x end
    | progress cbv zeta ].

Lemma never_hangs_await_settled {A} (p : Promise A) :
  p ≠ Pending → never_hangs (await p).
Proof. by destruct p; intros ? w. Qed.

(** A computation that leaves the world as it found it. *)
Lemma bind_leaves_world {A B} (m : JS A) (k : A → JS B) :
  (∀ w, (m w).2 = w) → (∀ a w, (k a w).2 = w) → ∀ w, (bind m k w).2 = w.
Proof.
  intros Hm Hk w. unfold bind. specialize (Hm w).
  destruct (m w) as [[a|e|] w']; simpl in *; subst; [apply Hk | done | done].
Qed.

Lemma try_catch_leaves_world {A} (body : JS A) handler :
  (∀ w, (body w).2 = w) → (∀ e w, (handler e w).2 = w) →
  ∀ w, (try_catch body handler w).2 = w.
Proof.
  intros Hm Hh w. unfold try_catch. specialize (Hm w).
  destruct (body w) as [[a|e|] w']; simpl in *; subst; [done | apply Hh | done].
Qed.

Lemma lift_leaves_world {A} (c : Completion A) w : (lift c w).2 = w.
Proof. by destruct c. Qed.

Lemma await_leaves_world {A} (p : Promise A) w : (await p w).2 = w.
Proof. by destruct p. Qed.

Ltac leaves_world :=
  repeat first
    [ apply bind_leaves_world; [| intros ?]
    | apply try_catch_leaves_world; [| intros ?]
    | apply lift_leaves_world | apply await_leaves_world
    | intros ?; reflexivity
    | intros ? ].

(** ** Document sniffer *)

Lemma parseYaml_settles E content : never_hangs (parseYamlDocument E content).
Proof.
  unfold parseYamlDocument. apply never_hangs_await_settled.
  destruct (yaml_load E content) as [v|e]; [|done].
  destruct v; cbn; done.
Qed.

(** X1. Classifying has no side effect and always ends: the disk and the
    random source are as before, and all that is recorded is at most the
    one read of the file. *)
Theorem classify_only_reads E filePath w :
  (detectMetaschemaDocumentType E filePath w).1 ≠ Hung
  ∧ ((detectMetaschemaDocumentType E filePath w).2 = w
     ∨ (detectMetaschemaDocumentType E filePath w).2
       = recorded [FsReadFile filePath] w).
Proof.
  unfold detectMetaschemaDocumentType.
  destruct (negb _); [split; [done | by left]|].
  unfold bind, readFileSync. rewrite query_eq.
  destruct (read_from (fs w) filePath) as [content|e]; [| split; [done | by right]].
  set (w1 := recorded _ w).
  assert (∀ m : JS (MetaschemaDocumentType * FileFormat),
            never_hangs m → (∀ w', (m w').2 = w') →
            (m w1).1 ≠ Hung ∧ ((m w1).2 = w ∨ (m w1).2 = w1)) as Hpure.
  { intros m Hm Hw. split; [apply Hm | right; apply Hw]. }
  repeat destruct (String.eqb _ _); apply Hpure.
  - unfold parseXmlDocument. comes_back.
  - unfold parseXmlDocument. leaves_world.
  - unfold parseJsonDocument. comes_back.
  - unfold parseJsonDocument. leaves_world.
  - apply parseYaml_settles.
  - unfold parseYamlDocument. leaves_world.
Qed.

Lemma detect_after_read E filePath w :
  Str.toLowerCase (path_extname E filePath) ∈ supported_extensions →
  detectMetaschemaDocumentType E filePath w
  = match read_from (fs w) filePath with
    | Abrupt e => (Threw e, recorded [FsReadFile filePath] w)
    | Normal content =>
        (let ext := Str.toLowerCase (path_extname E filePath) in
         if String.eqb ext ".xml" then parseXmlDocument E content
         else if String.eqb ext ".json" then parseJsonDocument E content
         else parseYamlDocument E content) (recorded [FsReadFile filePath] w)
    end.
Proof.
  intros Hext. unfold detectMetaschemaDocumentType, Str.includes.
  rewrite bool_decide_eq_true_2 by done. simpl.
  unfold bind, readFileSync. rewrite query_eq.
  by destruct (read_from (fs w) filePath).
Qed.

Lemma read_from_file disk path content :
  disk !! path = Some (File content) → read_from disk path = Normal content.
Proof. unfold read_from. by intros ->. Qed.

(** Only a regular file is read. *)
Lemma read_from_regular disk path content :
  read_from disk path = Normal content → holds_file disk path = true.
Proof.
  unfold read_from, holds_file.
  by destruct (disk !! path) as [[c| |c [] m]|].
Qed.

Lemma parser_branch E ext format content :
  format_of_extension ext = Some format →
  (if String.eqb ext ".xml" then parseXmlDocument E content
   else if String.eqb ext ".json" then parseJsonDocument E content
   else parseYamlDocument E content)
  = match format with
    | xml => parseXmlDocument E content
    | json => parseJsonDocument E content
    | yaml => parseYamlDocument E content
    end.
Proof.
  intros Hformat.
  destruct (format_of_extension_supported _ _ Hformat)
    as [_ [[-> ->] | [[-> ->] | [-> [-> | ->]]]]]; reflexivity.
Qed.

(** What each parser function makes of the result of its library. *)
Lemma parse_document_eq E format content w :
  match format with
  | xml => parseXmlDocument E content
  | json => parseJsonDocument E content
  | yaml => parseYamlDocument E content
  end w
  = (match parser_of E format content with
     | Abrupt e =>
         Threw (Error ("Failed to parse " +:+ format_label format +:+ ": "
                       +:+ Js.describe e))
     | Normal v =>
         if match format with yaml => negb (is_object v) | _ => false end
         then Threw (Error "Invalid YAML structure")
         else match Js.Object_keys v with
              | Normal keys => Returned (getDocumentType (head keys), format)
              | Abrupt e =>
                  Threw (Error ("Failed to parse " +:+ format_label format +:+ ": "
                                +:+ Js.describe e))
              end
     end, w).
Proof.
  destruct format; simpl.
  - unfold parseXmlDocument, try_catch, bind, lift.
    destruct (xml2js_parseStringPromise E content) as [v|e]; [|done]. simpl.
    by destruct (Js.Object_keys v).
  - unfold parseJsonDocument, try_catch, bind, lift.
    destruct (JSON_parse E content) as [v|e]; [|done]. simpl.
    by destruct (Js.Object_keys v).
  - unfold parseYamlDocument.
    destruct (yaml_load E content) as [v|e]; [|done].
    by destruct v.
Qed.

(** X2. A supported file whose content the parser of its format refuses is
    rejected with the Parse error of that format: the message names the
    format and carries the parser's own message. *)
Theorem parser_failure_is_reported E filePath w content format e :
  format_of_extension (Str.toLowerCase (path_extname E filePath)) = Some format →
  fs w !! filePath = Some (File content) →
  parser_of E format content = Abrupt e →
  detectMetaschemaDocumentType E filePath w
  = (Threw (Error ("Failed to parse " +:+ format_label format +:+ ": "
                   +:+ Js.describe e)),
     recorded [FsReadFile filePath] w).
Proof.
  intros Hformat Hfile Hparse.
  destruct (format_of_extension_supported _ _ Hformat) as [Hin _].
  rewrite (detect_after_read _ _ _ Hin).
  apply read_from_file in Hfile. rewrite Hfile. cbv zeta.
  rewrite (parser_branch _ _ _ _ Hformat), parse_document_eq. by rewrite Hparse.
Qed.

Lemma parser_failure_is_reported_witness :
  detectMetaschemaDocumentType Fixture.sniffing_machine "broken.json"
    (Fixture.world (Fixture.disk_with "broken.json" "{"))
  = (Threw (Error ("Failed to parse " +:+ format_label json +:+ ": "
                   +:+ Js.describe (JsError "SyntaxError" "Unexpected token"))),
     recorded [FsReadFile "broken.json"]
       (Fixture.world (Fixture.disk_with "broken.json" "{"))).
Proof.
  apply (parser_failure_is_reported Fixture.sniffing_machine "broken.json" _ "{" json).
  - reflexivity.
  - apply lookup_singleton_eq.
  - reflexivity.
Defined.

(** X3. A path with a supported extension that cannot be read (nothing is
    there, or a directory is) makes the call fail with the error of the
    read itself, not wrapped, whatever the parsers would say. *)
Theorem unreadable_file_is_io_error E filePath w e :
  Str.toLowerCase (path_extname E filePath) ∈ supported_extensions →
  read_from (fs w) filePath = Abrupt e →
  detectMetaschemaDocumentType E filePath w
  = (Threw e, recorded [FsReadFile filePath] w).
Proof. intros Hext Hread. by rewrite (detect_after_read _ _ _ Hext), Hread. Qed.

Lemma unreadable_file_is_io_error_witness :
  detectMetaschemaDocumentType Fixture.sniffing_machine "gone.yaml" (Fixture.world ∅)
  = (Threw (Error "ENOENT: no such file or directory, open 'gone.yaml'"),
     recorded [FsReadFile "gone.yaml"] (Fixture.world ∅)).
Proof.
  apply (unreadable_file_is_io_error Fixture.sniffing_machine "gone.yaml").
  - by_evaluation.
  - reflexivity.
Defined.

Lemma getDocumentType_constraints root :
  getDocumentType root = MetaConstraints ↔ root = Some "metaschema-meta-constraints".
Proof.
  destruct root as [root|]; simpl; [|done].
  destruct (String.eqb_spec root "metaschema-meta-constraints") as [->|Hne].
  - done.
  - destruct (String.eqb root "METASCHEMA"); split; try done; by intros [=].
Qed.

(** X4. Whatever the sniffer returns is backed by the file: the Format is the
    one of the extension, the file exists and was read, the parser of that
    format accepted its content, and the Kind is read off the first key of the
    parsed value; ConstraintSet is never reported unless that key is
    metaschema-meta-constraints, and a YAML value was a non-null object. *)
Theorem classification_is_sound E filePath w kind format w' :
  detectMetaschemaDocumentType E filePath w = (Returned (kind, format), w') →
  format_of_extension (Str.toLowerCase (path_extname E filePath)) = Some format
  ∧ ∃ content v keys,
      holds_file (fs w) filePath = true
      ∧ read_from (fs w) filePath = Normal content
      ∧ parser_of E format content = Normal v
      ∧ Js.Object_keys v = Normal keys
      ∧ (kind = MetaConstraints ↔ head keys = Some "metaschema-meta-constraints")
      ∧ (format = yaml → is_object v = true).
Proof.
  intros Hdetect.
  destruct (decide (Str.toLowerCase (path_extname E filePath) ∈ supported_extensions))
    as [Hin|Hout].
  2: { revert Hdetect. unfold detectMetaschemaDocumentType, Str.includes.
       by rewrite bool_decide_eq_false_2. }
  assert (∃ f, format_of_extension (Str.toLowerCase (path_extname E filePath)) = Some f)
    as [f Hf].
  { unfold supported_extensions in Hin. unfold format_of_extension.
    repeat (apply elem_of_cons in Hin as [->|Hin]; [by eexists|]).
    by apply elem_of_nil in Hin. }
  rewrite (detect_after_read _ _ _ Hin) in Hdetect.
  destruct (read_from (fs w) filePath) as [content|e] eqn:Hread; [|done].
  cbv zeta in Hdetect.
  rewrite (parser_branch _ _ _ _ Hf), parse_document_eq in Hdetect.
  destruct (parser_of E f content) as [v|e] eqn:Hparse; [|done].
  destruct (match f with yaml => negb (is_object v) | _ => false end) eqn:Hobj; [done|].
  destruct (Js.Object_keys v) as [keys|e] eqn:Hkeys; [|done].
  injection Hdetect as <- <- <-. split; [done|].
  exists content, v, keys. repeat split; try done.
  - by apply (read_from_regular _ _ content).
  - apply getDocumentType_constraints.
  - apply getDocumentType_constraints.
  - intros ->. by apply negb_false_iff in Hobj.
Qed.

Lemma classification_is_sound_witness :
  format_of_extension (Str.toLowerCase (path_extname Fixture.sniffing_machine "a.yml"))
  = Some yaml
  ∧ ∃ content v keys,
      holds_file
        (fs (Fixture.world (Fixture.disk_with "a.yml"
                              "{metaschema-meta-constraints: {}}")))
        "a.yml" = true
      ∧ read_from
          (fs (Fixture.world (Fixture.disk_with "a.yml"
                                "{metaschema-meta-constraints: {}}")))
          "a.yml" = Normal content
      ∧ parser_of Fixture.sniffing_machine yaml content = Normal v
      ∧ Js.Object_keys v = Normal keys
      ∧ (MetaConstraints = MetaConstraints
         ↔ head keys = Some "metaschema-meta-constraints")
      ∧ (yaml = yaml → is_object v = true).
Proof.
  apply (classification_is_sound Fixture.sniffing_machine "a.yml"
           (Fixture.world (Fixture.disk_with "a.yml" "{metaschema-meta-constraints: {}}"))
           MetaConstraints yaml
           (recorded [FsReadFile "a.yml"]
              (Fixture.world
                 (Fixture.disk_with "a.yml" "{metaschema-meta-constraints: {}}")))).
  vm_compute. reflexivity.
Defined.

(** X5. An XML or JSON document whose parser hands back null or undefined
    (an empty XML text, the JSON text null) is not classified: taking its
    keys fails, and the failure is reported as a Parse error. *)
Theorem null_document_is_parse_error E filePath w content format v :
  format_of_extension (Str.toLowerCase (path_extname E filePath)) = Some format →
  format ≠ yaml →
  fs w !! filePath = Some (File content) →
  parser_of E format content = Normal v →
  v = JNull ∨ v = JUndefined →
  detectMetaschemaDocumentType E filePath w
  = (Threw (Error ("Failed to parse " +:+ format_label format
                   +:+ ": TypeError: Cannot convert undefined or null to object")),
     recorded [FsReadFile filePath] w).
Proof.
  intros Hformat Hyaml Hfile Hparse Hnull.
  destruct (format_of_extension_supported _ _ Hformat) as [Hin _].
  rewrite (detect_after_read _ _ _ Hin).
  apply read_from_file in Hfile. rewrite Hfile. cbv zeta.
  rewrite (parser_branch _ _ _ _ Hformat), parse_document_eq, Hparse.
  destruct format; [| | done]; by destruct Hnull as [-> | ->].
Qed.

Lemma null_document_is_parse_error_witness :
  detectMetaschemaDocumentType Fixture.sniffing_machine "a.json"
    (Fixture.world (Fixture.disk_with "a.json" "null"))
  = (Threw (Error ("Failed to parse " +:+ format_label json
                   +:+ ": TypeError: Cannot convert undefined or null to object")),
     recorded [FsReadFile "a.json"] (Fixture.world (Fixture.disk_with "a.json" "null"))).
Proof.
  apply (null_document_is_parse_error Fixture.sniffing_machine "a.json" _ "null" json JNull).
  - reflexivity.
  - discriminate.
  - apply lookup_singleton_eq.
  - reflexivity.
  - by left.
Defined.

Lemma supported_has_format ext :
  ext ∈ supported_extensions → ∃ format, format_of_extension ext = Some format.
Proof.
  unfold supported_extensions, format_of_extension. intros Hin.
  repeat (apply elem_of_cons in Hin as [->|Hin]; [by eexists|]).
  by apply elem_of_nil in Hin.
Qed.

(** X6. [isValidFileType] and the sniffer agree on what is supported: the
    helper says no exactly for the paths the sniffer rejects as an
    unsupported format; no other failure of the sniffer (unreadable file,
    refused content) is reported under that message. *)
Theorem valid_file_type_iff_format_accepted E filePath w :
  isValidFileType E filePath = false
  ↔ (detectMetaschemaDocumentType E filePath w).1
    = Threw (Error "Unsupported file format. Only XML YAML and JSON are supported.").
Proof.
  unfold isValidFileType, Str.includes, validExtensions.
  fold supported_extensions. split.
  - intros Hinvalid. unfold detectMetaschemaDocumentType, Str.includes.
    by rewrite Hinvalid.
  - intros Hdetect. apply bool_decide_eq_false. intros Hin.
    rewrite (detect_after_read _ _ _ Hin) in Hdetect.
    destruct (supported_has_format _ Hin) as [format Hformat].
    destruct (read_from (fs w) filePath) as [content|e] eqn:Hread.
    2: { unfold read_from in Hread.
         destruct (fs w !! filePath) as [[c| |c [] m]|]; try discriminate Hread;
           injection Hread as <-; vm_compute in Hdetect; discriminate Hdetect. }
    cbv zeta in Hdetect.
    rewrite (parser_branch _ _ _ _ Hformat), parse_document_eq in Hdetect.
    simpl in Hdetect.
    destruct (parser_of E format content) as [v|e].
    + destruct (match format with yaml => negb (is_object v) | _ => false end);
        [discriminate Hdetect|].
      destruct (Js.Object_keys v); [discriminate Hdetect|].
      destruct format; vm_compute in Hdetect; discriminate Hdetect.
    + destruct format; vm_compute in Hdetect; discriminate Hdetect.
Qed.

(** ** Looking for the tool *)

(** [isJavaInstalled] asks the search command and nothing else: it always
    answers, true exactly when the command succeeds, and unlike the check
    for the tool itself it never looks at the disk. *)
Theorem java_check_is_search_only E w :
  ∃ b : bool,
    isJavaInstalled E w
    = (Returned b, recorded [ProcExec (search_command E "java")] w)
    ∧ (b = true
       ↔ ∃ out, child_exec E (search_command E "java") (fs w) = Normal out).
Proof.
  unfold isJavaInstalled. rewrite checkCommand_eq.
  destruct (child_exec E _ (fs w)) as [out|e]; eexists; (split; [done|]).
  - split; [eauto | done].
  - split; [done | by intros [out [=]]].
Qed.

(** *** Trimming and splitting the output of the search *)

Lemma solid_cons c s :
  solid (String c s) ↔ Str.is_space c = false ∧ solid s.
Proof. unfold solid. simpl. by rewrite Forall_cons. Qed.

Lemma trimEnd_cons_solid c s :
  Str.is_space c = false → Str.trimEnd (String c s) = String c (Str.trimEnd s).
Proof. intros Hc. simpl. rewrite Hc. by destruct (Str.trimEnd s). Qed.

Lemma trimEnd_cons_kept c s :
  Str.trimEnd s ≠ EmptyString → Str.trimEnd (String c s) = String c (Str.trimEnd s).
Proof. intros Hs. simpl. by destruct (Str.trimEnd s). Qed.

Lemma trimEnd_solid_app p s :
  solid p → Str.trimEnd (p +:+ s) = p +:+ Str.trimEnd s.
Proof.
  induction p as [|c p IH]; [done|]. intros [Hc Hp]%solid_cons.
  change (String c p +:+ s) with (String c (p +:+ s)).
  rewrite (trimEnd_cons_solid _ _ Hc), (IH Hp). done.
Qed.

Lemma trimStart_solid_app p s :
  p ≠ EmptyString → solid p → Str.trimStart (p +:+ s) = p +:+ s.
Proof.
  destruct p as [|c p]; [done|]. intros _ [Hc _]%solid_cons.
  change (String c p +:+ s) with (String c (p +:+ s)). simpl. by rewrite Hc.
Qed.

Lemma split_without_sep sep s :
  Forall (λ c, c ≠ sep) (list_ascii_of_string s) → Str.split sep s = [s].
Proof.
  induction s as [|c s IH]; [done|]. simpl. intros [Hc Hs]%Forall_cons.
  destruct (Ascii.eqb_spec c sep) as [?|_]; [done|]. by rewrite (IH Hs).
Qed.

Lemma split_at_first_sep sep p s :
  Forall (λ c, c ≠ sep) (list_ascii_of_string p) →
  Str.split sep (p +:+ String sep s) = p :: Str.split sep s.
Proof.
  induction p as [|c p IH].
  - intros _. change (EmptyString +:+ String sep s) with (String sep s).
    simpl. by rewrite Ascii.eqb_refl.
  - simpl. intros [Hc Hp]%Forall_cons.
    change (String c p +:+ String sep s) with (String c (p +:+ String sep s)).
    simpl. destruct (Ascii.eqb_spec c sep) as [?|_]; [done|]. by rewrite (IH Hp).
Qed.

Lemma solid_has_no_line_feed s :
  solid s → Forall (λ c, c ≠ ascii_of_nat 10) (list_ascii_of_string s).
Proof. intros Hs. eapply Forall_impl; [exact Hs|]. by intros c Hc ->. Qed.

(** X7. The usual answer of the search command, one match to a line: the
    path returned is the first line, as it was printed, whatever follows
    it. *)
Theorem locate_returns_first_match E w path rest err :
  path ≠ EmptyString →
  solid path →
  child_exec E (search_command E "metaschema-cli") (fs w)
  = Normal (path +:+ Str.LF +:+ rest, err) →
  findMetaschemaCliPath E w
  = (Returned path, recorded [ProcExec (search_command E "metaschema-cli")] w).
Proof.
  intros Hne Hsolid Hexec. rewrite locate_eq, Hexec. unfold Str.trim.
  rewrite (trimStart_solid_app _ _ Hne Hsolid), (trimEnd_solid_app _ _ Hsolid).
  change (Str.LF +:+ rest) with (String (ascii_of_nat 10) rest).
  assert (Str.trimEnd (String (ascii_of_nat 10) rest) = EmptyString
          ∨ ∃ kept, Str.trimEnd (String (ascii_of_nat 10) rest)
                    = String (ascii_of_nat 10) kept) as [-> | [kept ->]].
  { simpl. destruct (Str.trimEnd rest); eauto. }
  - rewrite append_empty, (split_without_sep _ _ (solid_has_no_line_feed _ Hsolid)).
    done.
  - by rewrite (split_at_first_sep _ _ _ (solid_has_no_line_feed _ Hsolid)).
Qed.

Lemma locate_returns_first_match_witness :
  findMetaschemaCliPath Fixture.failing_machine (Fixture.world ∅)
  = (Returned "/usr/local/bin/metaschema-cli",
     recorded [ProcExec (search_command Fixture.failing_machine "metaschema-cli")]
       (Fixture.world ∅)).
Proof.
  apply (locate_returns_first_match Fixture.failing_machine (Fixture.world ∅)
           "/usr/local/bin/metaschema-cli" EmptyString EmptyString).
  - discriminate.
  - unfold solid. simpl. repeat constructor.
  - reflexivity.
Defined.

Lemma trimEnd_app_kept p s :
  Str.trimEnd s ≠ EmptyString → Str.trimEnd (p +:+ s) = p +:+ Str.trimEnd s.
Proof.
  intros Hkept. induction p as [|c p IH]; [done|].
  change (String c p +:+ s) with (String c (p +:+ s)).
  rewrite trimEnd_cons_kept; rewrite IH; [done|].
  destruct p; [done | discriminate].
Qed.

Lemma trimEnd_begins_solid s rest :
  begins_solid s → Str.trimEnd (s +:+ rest) ≠ EmptyString.
Proof.
  destruct s as [|c s]; [done|]. intros Hc.
  change (String c s +:+ rest) with (String c (s +:+ rest)).
  by rewrite (trimEnd_cons_solid _ _ Hc).
Qed.

Lemma trimStart_begins_solid s rest :
  begins_solid s → Str.trimStart (s +:+ rest) = s +:+ rest.
Proof.
  destruct s as [|c s]; [done|]. intros Hc.
  change (String c s +:+ rest) with (String c (s +:+ rest)). simpl. by rewrite Hc.
Qed.

Lemma one_line_with_carriage_return s :
  one_line s → one_line (s +:+ Str.CR).
Proof.
  unfold one_line. induction s as [|c s IH]; intros Hs.
  - repeat constructor. discriminate.
  - change (String c s +:+ Str.CR) with (String c (s +:+ Str.CR)).
    cbn [list_ascii_of_string] in *. apply Forall_cons in Hs as [Hc Hs].
    constructor; [done | by apply IH].
Qed.

(** X8. When the search prints several matches with the line ends of Windows
    (carriage return, line feed), the path returned is the first line
    with its carriage return still attached: only the end of the whole
    output is trimmed, and the lines are split at line feeds.  The first
    match is any line that does not begin with white space, the second
    any text that does not; both may hold spaces. *)
Theorem locate_keeps_carriage_return E w first second rest err :
  begins_solid first → one_line first →
  begins_solid second →
  child_exec E (search_command E "metaschema-cli") (fs w)
  = Normal (first +:+ Str.CR +:+ Str.LF +:+ second +:+ rest, err) →
  findMetaschemaCliPath E w
  = (Returned (first +:+ Str.CR),
     recorded [ProcExec (search_command E "metaschema-cli")] w).
Proof.
  intros Hbegin1 Hline1 Hbegin2 Hexec. rewrite locate_eq, Hexec. unfold Str.trim.
  rewrite (trimStart_begins_solid _ _ Hbegin1).
  change (first +:+ Str.CR +:+ Str.LF +:+ second +:+ rest)
    with (first +:+ (Str.CR +:+ (Str.LF +:+ (second +:+ rest)))).
  rewrite <- (append_assoc first Str.CR), <- (append_assoc (first +:+ Str.CR) Str.LF).
  rewrite trimEnd_app_kept by by apply trimEnd_begins_solid.
  rewrite (append_assoc (first +:+ Str.CR) Str.LF).
  change (Str.LF +:+ ?s) with (String (ascii_of_nat 10) s).
  by rewrite (split_at_first_sep _ _ _ (one_line_with_carriage_return _ Hline1)).
Qed.

Lemma locate_keeps_carriage_return_witness :
  findMetaschemaCliPath Scenario.windows_machine (Fixture.world ∅)
  = (Returned ("C:/npm/metaschema-cli.bat" +:+ Str.CR),
     recorded [ProcExec (search_command Scenario.windows_machine "metaschema-cli")]
       (Fixture.world ∅)).
Proof.
  apply (locate_keeps_carriage_return Scenario.windows_machine (Fixture.world ∅)
           "C:/npm/metaschema-cli.bat" "D:/tools/metaschema-cli.bat"
           (Str.CR +:+ Str.LF) EmptyString).
  - reflexivity.
  - unfold one_line. simpl. repeat constructor; discriminate.
  - reflexivity.
  - reflexivity.
Defined.

(** ** Installer *)

(** *** Running a sequence step by step *)

Lemma bind_returned {A B} (m : JS A) (k : A → JS B) w a w' :
  m w = (Returned a, w') → bind m k w = k a w'.
Proof. intros H. unfold bind. by rewrite H. Qed.

Lemma bind_threw {A B} (m : JS A) (k : A → JS B) w e w' :
  m w = (Threw e, w') → bind m k w = (Threw e, w').
Proof. intros H. unfold bind. by rewrite H. Qed.

Lemma bind_emit {B} ev (k : unit → JS B) w :
  bind (emit ev) k w = k tt (recorded [ev] w).
Proof. reflexivity. Qed.

Lemma bind_query_normal {A B} ev (op : gmap string Entry → Completion A)
    (k : A → JS B) w a :
  op (fs w) = Normal a → bind (query ev op) k w = k a (recorded [ev] w).
Proof. intros H. apply bind_returned. by rewrite query_eq, H. Qed.

Lemma bind_on_disk_normal {A B} ev
    (op : gmap string Entry → Completion A * gmap string Entry)
    (k : A → JS B) w a disk :
  op (fs w) = (Normal a, disk) →
  bind (on_disk ev op) k w
  = k a {| fs := disk; trace := trace w ++ [ev]; draws := draws w |}.
Proof. intros H. apply bind_returned. by rewrite on_disk_eq, H. Qed.

Lemma on_disk_normal {A} ev
    (op : gmap string Entry → Completion A * gmap string Entry) w a disk :
  op (fs w) = (Normal a, disk) →
  on_disk ev op w
  = (Returned a, {| fs := disk; trace := trace w ++ [ev]; draws := draws w |}).
Proof. intros H. by rewrite on_disk_eq, H. Qed.

Lemma download_eq E version w :
  downloadFromMaven E version w
  = let v := Js.ToString version in
    let url := MAVEN_DOWNLOAD_URL v in
    let asked :=
      [ConsoleLog [Text ("Downloading version " +:+ v +:+ " from " +:+ url)];
       NetFetch url] in
    match match fetch E url with
          | Abrupt e => Abrupt e
          | Normal response =>
              if ok response then arrayBuffer response
              else Abrupt (http_error response)
          end with
    | Normal body => (Returned body, recorded asked w)
    | Abrupt e =>
        (Threw e,
         recorded (asked ++ [ConsoleError [Text ("Error downloading version "
                                                 +:+ v +:+ ":"); Caught e]]) w)
    end.
Proof.
  unfold downloadFromMaven, try_catch. cbv zeta.
  unfold console_log. rewrite bind_emit. unfold js_fetch, bind. rewrite query_eq.
  unfold recorded; cbn [fs trace draws].
  destruct (fetch E _) as [response|e]; cbn; [| by rewrite <- !app_assoc].
  destruct (ok response); cbn; [| by rewrite <- !app_assoc].
  destruct (arrayBuffer response); cbn; by rewrite <- !app_assoc.
Qed.

(** The steps of an installation on which every call succeeds, on either
    platform. *)
Lemma install_steps_run E version w prefix disk1 response zip disk2 disk3 disk4 disk5 :
  let npmPrefix := Str.trim prefix in
  let root := install_root E npmPrefix in
  let exe := install_executable E npmPrefix in
  let alias := alias_path E npmPrefix in
  let source := if isWindows E then exe +:+ ".bat" else exe in
  let batch := "@echo off" +:+ Str.LF +:+ Str.DQ +:+ source +:+ Str.DQ +:+ " %*" in
  let url := MAVEN_DOWNLOAD_URL (Js.ToString version) in
  child_execSync E "npm config get prefix" (fs w) = Normal prefix →
  fs_mkdirSync E root (fs w) = (Normal tt, disk1) →
  fetch E url = Normal response →
  ok response = true →
  arrayBuffer response = Normal zip →
  zip_extractAllTo E zip root disk1 = (Normal tt, disk2) →
  (if isWindows E then (Normal tt, disk2) else fs_chmodSync E exe "755" disk2)
  = (Normal tt, disk3) →
  (if exists_on disk3 alias then fs_unlinkSync E alias disk3 else (Normal tt, disk3))
  = (Normal tt, disk4) →
  (if isWindows E then fs_writeFileSync E alias batch disk4
   else fs_symlinkSync E source alias disk4)
  = (Normal tt, disk5) →
  install_steps E version w
  = (Returned tt,
     {| fs := disk5;
        trace :=
          trace w
          ++ [ConsoleLog [Text "Installing version:";
                          Text (chalk E blue (Js.ToString version))];
              ProcExecSync "npm config get prefix";
              FsMkdir root;
              ConsoleLog [Text "Downloading METASCHEMA CLI..."];
              ConsoleLog [Text ("Downloading version " +:+ Js.ToString version
                                +:+ " from " +:+ url)];
              NetFetch url;
              ConsoleLog [Text "Extracting METASCHEMA CLI..."];
              ZipExtractAll root]
          ++ (if isWindows E then []
              else [ConsoleLog [Text ("Setting executable permissions for CLI at "
                                      +:+ exe)];
                    FsChmod exe "755"])
          ++ [ConsoleLog [Text ("Creating METASCHEMA CLI symlink: metaschema-cli => "
                                +:+ exe)];
              FsExists alias]
          ++ (if exists_on disk3 alias then [FsUnlink alias] else [])
          ++ [if isWindows E then FsWriteFile alias batch else FsSymlink source alias;
              ConsoleLog [Text ("METASCHEMA CLI installed to " +:+ root)];
              ConsoleLog [Text ("Alias created at " +:+ alias)]];
        draws := draws w |}).
Proof.
  intros npmPrefix root exe alias source batch url
    Hprefix Hmkdir Hfetch Hok Hzip Hextract Hchmod Hunlink Hlink.
  unfold install_steps, console_log.
  rewrite bind_emit.
  rewrite (bind_query_normal _ _ _ _ prefix) by exact Hprefix.
  cbv zeta. fold npmPrefix.
  change (path_join E [npmPrefix; "lib"; "node_modules"; "metaschema-cli"]) with root.
  change (path_join E [root; "bin"; "metaschema-cli"]) with exe.
  change (path_join E [if isWindows E then npmPrefix else path_join E [npmPrefix; "bin"];
                       "metaschema-cli" +:+ (if isWindows E then ".bat" else EmptyString)])
    with alias.
  rewrite (bind_on_disk_normal _ _ _ _ tt disk1) by exact Hmkdir.
  rewrite bind_emit.
  erewrite bind_returned;
    [| rewrite download_eq; cbv zeta; fold url; rewrite Hfetch, Hok, Hzip; reflexivity].
  rewrite bind_emit.
  rewrite (bind_on_disk_normal _ _ _ _ tt disk2) by exact Hextract.
  unfold recorded; cbn [fs trace draws].
  rewrite <- !app_assoc. cbn [app].
  destruct (isWindows E) eqn:Hwin; cbn [negb].
  - injection Hchmod as <-.
    rewrite (bind_returned (ret tt) _ _ tt _ eq_refl).
    rewrite bind_emit. unfold bind at 1. rewrite existsSync_eq.
    unfold recorded; cbn [fs trace draws].
    destruct (exists_on disk2 alias).
    + rewrite (bind_on_disk_normal _ _ _ _ tt disk4) by exact Hunlink.
      rewrite (bind_on_disk_normal _ _ _ _ tt disk5) by exact Hlink.
      rewrite bind_emit. rewrite emit_eq.
      unfold recorded; cbn [fs trace draws]. by rewrite <- !app_assoc.
    + injection Hunlink as <-.
      rewrite (bind_returned (ret tt) _ _ tt _ eq_refl).
      rewrite (bind_on_disk_normal _ _ _ _ tt disk5) by exact Hlink.
      rewrite bind_emit. rewrite emit_eq.
      unfold recorded; cbn [fs trace draws]. by rewrite <- !app_assoc.
  - erewrite (bind_returned (bind _ _));
      [| rewrite bind_emit; apply on_disk_normal; exact Hchmod].
    rewrite bind_emit. unfold bind at 1. rewrite existsSync_eq.
    unfold recorded; cbn [fs trace draws].
    destruct (exists_on disk3 alias).
    + rewrite (bind_on_disk_normal _ _ _ _ tt disk4) by exact Hunlink.
      rewrite (bind_on_disk_normal _ _ _ _ tt disk5) by exact Hlink.
      rewrite bind_emit. rewrite emit_eq.
      unfold recorded; cbn [fs trace draws]. by rewrite <- !app_assoc.
    + injection Hunlink as <-.
      rewrite (bind_returned (ret tt) _ _ tt _ eq_refl).
      rewrite (bind_on_disk_normal _ _ _ _ tt disk5) by exact Hlink.
      rewrite bind_emit. rewrite emit_eq.
      unfold recorded; cbn [fs trace draws]. by rewrite <- !app_assoc.
Qed.

Lemma install_with_known_selector E selector w info :
  (getVersionsFromMaven E w).1 = Returned info →
  selector = "latest" ∨ Js.includes (versions info) selector = true →
  installMetaschemaCli E selector w
  = try_catch (install_steps E (chosen_version info selector))
      (λ error,
         throw (Error ("Failed to install METASCHEMA CLI: " +:+ Js.message_of error)))
      (recorded [NetFetch MAVEN_METADATA_URL] w).
Proof.
  intros Hlist Hknown.
  destruct (getVersionsFromMaven E w) as [out w1] eqn:Heq. simpl in Hlist. subst out.
  pose proof (getVersions_returned_world _ _ _ _ Heq) as ->.
  unfold installMetaschemaCli, try_catch, bind, chosen_version. rewrite Heq.
  destruct (String.eqb_spec selector "latest") as [->|Hne]; [done|].
  destruct Hknown as [?|Hin]; [done|]. by rewrite Hin.
Qed.

(** X12. A complete installation off Windows.  When the index is fetched, the
    selector is latest or a listed version, and every step succeeds, the
    call returns after taking the steps in this order: ask npm for its
    prefix, make the install directory, download the archive of the
    chosen version (the release for latest), extract it, make the entry
    point executable with mode 755, remove an alias that is in the way,
    and link the alias in the bin directory of the prefix to the entry
    point.  The disk is the one the last step left. *)
Theorem install_takes_every_step_posix
    E selector w info prefix disk1 response zip disk2 disk3 disk4 disk5 :
  isWindows E = false →
  (getVersionsFromMaven E w).1 = Returned info →
  selector = "latest" ∨ Js.includes (versions info) selector = true →
  child_execSync E "npm config get prefix" (fs w) = Normal prefix →
  fs_mkdirSync E (install_root E (Str.trim prefix)) (fs w) = (Normal tt, disk1) →
  fetch E (MAVEN_DOWNLOAD_URL (Js.ToString (chosen_version info selector)))
  = Normal response →
  ok response = true →
  arrayBuffer response = Normal zip →
  zip_extractAllTo E zip (install_root E (Str.trim prefix)) disk1 = (Normal tt, disk2) →
  fs_chmodSync E (install_executable E (Str.trim prefix)) "755" disk2
  = (Normal tt, disk3) →
  (if exists_on disk3 (alias_path E (Str.trim prefix))
   then fs_unlinkSync E (alias_path E (Str.trim prefix)) disk3
   else (Normal tt, disk3))
  = (Normal tt, disk4) →
  fs_symlinkSync E (install_executable E (Str.trim prefix))
    (alias_path E (Str.trim prefix)) disk4
  = (Normal tt, disk5) →
  installMetaschemaCli E selector w
  = (Returned tt,
     {| fs := disk5;
        trace :=
          trace w
          ++ NetFetch MAVEN_METADATA_URL
             :: posix_install_events E (chosen_version info selector) (Str.trim prefix)
                  (exists_on disk3 (alias_path E (Str.trim prefix)));
        draws := draws w |}).
Proof.
  intros Hposix Hlist Hknown Hprefix Hmkdir Hfetch Hok Hzip Hextract Hchmod
    Hunlink Hlink.
  rewrite (install_with_known_selector _ _ _ _ Hlist Hknown). unfold try_catch.
  rewrite (install_steps_run E _ _ prefix disk1 response zip disk2 disk3 disk4 disk5);
    try done; rewrite ?Hposix; try done.
  unfold recorded, posix_install_events, alias_path. rewrite Hposix.
  cbn [fs trace draws]. f_equal. f_equal.
  rewrite <- !app_assoc. cbn [app]. done.
Qed.

Lemma install_takes_every_step_posix_witness :
  installMetaschemaCli Fixture.index_machine "latest" (Fixture.world ∅)
  = (Returned tt,
     {| fs := ∅;
        trace :=
          trace (Fixture.world ∅)
          ++ NetFetch MAVEN_METADATA_URL
             :: posix_install_events Fixture.index_machine
                  (chosen_version
                     {| versions := [JStr "0.10.0"; JStr "0.9.0"];
                        latestVersion := JStr "0.10.0" |} "latest")
                  (Str.trim "/usr/local")
                  (exists_on ∅ (alias_path Fixture.index_machine (Str.trim "/usr/local")));
        draws := draws (Fixture.world ∅) |}).
Proof.
  apply (install_takes_every_step_posix Fixture.index_machine "latest" (Fixture.world ∅)
           {| versions := [JStr "0.10.0"; JStr "0.9.0"]; latestVersion := JStr "0.10.0" |}
           "/usr/local" ∅
           {| ok := true; status := 200; text := Normal "<metadata/>";
              arrayBuffer := Normal "<metadata/>" |}
           "<metadata/>" ∅ ∅ ∅ ∅);
    try reflexivity.
  by left.
Defined.

(** X13. A complete installation on Windows takes the same steps in the same
    order, without setting a permission, and the alias is a batch file
    directly under the prefix whose text calls the entry point with the
    suffix .bat and hands all arguments on. *)
Theorem install_takes_every_step_windows
    E selector w info prefix disk1 response zip disk2 disk4 disk5 :
  isWindows E = true →
  (getVersionsFromMaven E w).1 = Returned info →
  selector = "latest" ∨ Js.includes (versions info) selector = true →
  child_execSync E "npm config get prefix" (fs w) = Normal prefix →
  fs_mkdirSync E (install_root E (Str.trim prefix)) (fs w) = (Normal tt, disk1) →
  fetch E (MAVEN_DOWNLOAD_URL (Js.ToString (chosen_version info selector)))
  = Normal response →
  ok response = true →
  arrayBuffer response = Normal zip →
  zip_extractAllTo E zip (install_root E (Str.trim prefix)) disk1 = (Normal tt, disk2) →
  (if exists_on disk2 (alias_path E (Str.trim prefix))
   then fs_unlinkSync E (alias_path E (Str.trim prefix)) disk2
   else (Normal tt, disk2))
  = (Normal tt, disk4) →
  fs_writeFileSync E (alias_path E (Str.trim prefix))
    (batch_shim (install_executable E (Str.trim prefix))) disk4
  = (Normal tt, disk5) →
  installMetaschemaCli E selector w
  = (Returned tt,
     {| fs := disk5;
        trace :=
          trace w
          ++ NetFetch MAVEN_METADATA_URL
             :: windows_install_events E (chosen_version info selector) (Str.trim prefix)
                  (exists_on disk2 (alias_path E (Str.trim prefix)));
        draws := draws w |}).
Proof.
  intros Hwindows Hlist Hknown Hprefix Hmkdir Hfetch Hok Hzip Hextract Hunlink Hlink.
  rewrite (install_with_known_selector _ _ _ _ Hlist Hknown). unfold try_catch.
  rewrite (install_steps_run E _ _ prefix disk1 response zip disk2 disk2 disk4 disk5);
    try done; rewrite ?Hwindows; try done.
  unfold recorded, windows_install_events, alias_path, batch_shim. rewrite Hwindows.
  cbn [fs trace draws]. f_equal. f_equal.
  rewrite <- !app_assoc. cbn [app]. done.
Qed.

Lemma install_takes_every_step_windows_witness :
  installMetaschemaCli Scenario.windows_machine "0.9.0"
    (Fixture.world (Fixture.disk_with "C:/npm/metaschema-cli.bat" "old"))
  = (Returned tt,
     {| fs := <["C:/npm/metaschema-cli.bat" :=
                  File (batch_shim "C:/npm/lib/node_modules/metaschema-cli/bin/metaschema-cli")]>
                (delete "C:/npm/metaschema-cli.bat"
                   (Fixture.disk_with "C:/npm/metaschema-cli.bat" "old"));
        trace :=
          trace (Fixture.world (Fixture.disk_with "C:/npm/metaschema-cli.bat" "old"))
          ++ NetFetch MAVEN_METADATA_URL
             :: windows_install_events Scenario.windows_machine
                  (chosen_version
                     {| versions := [JStr "0.10.0"; JStr "0.9.0"];
                        latestVersion := JStr "0.10.0" |} "0.9.0")
                  (Str.trim "C:/npm")
                  (exists_on (Fixture.disk_with "C:/npm/metaschema-cli.bat" "old")
                     (alias_path Scenario.windows_machine (Str.trim "C:/npm")));
        draws := draws (Fixture.world (Fixture.disk_with "C:/npm/metaschema-cli.bat" "old")) |}).
Proof.
  apply (install_takes_every_step_windows Scenario.windows_machine "0.9.0"
           (Fixture.world (Fixture.disk_with "C:/npm/metaschema-cli.bat" "old"))
           {| versions := [JStr "0.10.0"; JStr "0.9.0"]; latestVersion := JStr "0.10.0" |}
           "C:/npm" (Fixture.disk_with "C:/npm/metaschema-cli.bat" "old")
           {| ok := true; status := 200; text := Normal "<metadata/>";
              arrayBuffer := Normal "<metadata/>" |}
           "<metadata/>" (Fixture.disk_with "C:/npm/metaschema-cli.bat" "old")
           (delete "C:/npm/metaschema-cli.bat"
              (Fixture.disk_with "C:/npm/metaschema-cli.bat" "old")));
    try reflexivity.
  all: first [by right | vm_compute; reflexivity].
Defined.

(** X14. A download that is answered with a status outside 2xx ends the
    installation with the Install error that carries the status.  By then
    npm was asked and the install directory was made; the disk is left as
    the making of the directory left it, and nothing is extracted, made
    executable or linked. *)
Theorem refused_download_is_not_rolled_back E selector w info prefix disk1 response :
  (getVersionsFromMaven E w).1 = Returned info →
  selector = "latest" ∨ Js.includes (versions info) selector = true →
  child_execSync E "npm config get prefix" (fs w) = Normal prefix →
  fs_mkdirSync E (install_root E (Str.trim prefix)) (fs w) = (Normal tt, disk1) →
  fetch E (MAVEN_DOWNLOAD_URL (Js.ToString (chosen_version info selector)))
  = Normal response →
  ok response = false →
  installMetaschemaCli E selector w
  = (Threw (Error ("Failed to install METASCHEMA CLI: HTTP error! status: "
                   +:+ pretty (status response))),
     {| fs := disk1;
        trace :=
          trace w
          ++ [NetFetch MAVEN_METADATA_URL;
              ConsoleLog [Text "Installing version:";
                          Text (chalk E blue
                                  (Js.ToString (chosen_version info selector)))];
              ProcExecSync "npm config get prefix";
              FsMkdir (install_root E (Str.trim prefix));
              ConsoleLog [Text "Downloading METASCHEMA CLI..."];
              ConsoleLog [Text ("Downloading version "
                                +:+ Js.ToString (chosen_version info selector)
                                +:+ " from "
                                +:+ MAVEN_DOWNLOAD_URL
                                      (Js.ToString (chosen_version info selector)))];
              NetFetch (MAVEN_DOWNLOAD_URL (Js.ToString (chosen_version info selector)));
              ConsoleError [Text ("Error downloading version "
                                  +:+ Js.ToString (chosen_version info selector)
                                  +:+ ":");
                            Caught (http_error response)]];
        draws := draws w |}).
Proof.
  intros Hlist Hknown Hprefix Hmkdir Hfetch Hrefused.
  rewrite (install_with_known_selector _ _ _ _ Hlist Hknown). unfold try_catch.
  unfold install_steps, console_log.
  rewrite bind_emit, (bind_query_normal _ _ _ _ prefix) by exact Hprefix.
  cbv zeta.
  rewrite (bind_on_disk_normal _ _ _ _ tt disk1) by exact Hmkdir.
  rewrite bind_emit.
  erewrite bind_threw;
    [| rewrite download_eq; cbv zeta; rewrite Hfetch, Hrefused; reflexivity].
  unfold throw, recorded, http_error; cbn [fs trace draws Js.message_of Error].
  f_equal. f_equal. by rewrite <- !app_assoc.
Qed.

Lemma refused_download_is_not_rolled_back_witness :
  installMetaschemaCli Scenario.archive_missing_machine "0.9.0" (Fixture.world ∅)
  = (Threw (Error ("Failed to install METASCHEMA CLI: HTTP error! status: "
                   +:+ pretty 404%Z)),
     {| fs := ∅;
        trace :=
          trace (Fixture.world ∅)
          ++ [NetFetch MAVEN_METADATA_URL;
              ConsoleLog [Text "Installing version:"; Text "0.9.0"];
              ProcExecSync "npm config get prefix";
              FsMkdir "/usr/local/lib/node_modules/metaschema-cli";
              ConsoleLog [Text "Downloading METASCHEMA CLI..."];
              ConsoleLog [Text ("Downloading version 0.9.0 from "
                                +:+ MAVEN_DOWNLOAD_URL "0.9.0")];
              NetFetch (MAVEN_DOWNLOAD_URL "0.9.0");
              ConsoleError [Text "Error downloading version 0.9.0:";
                            Caught (Error "HTTP error! status: 404")]];
        draws := draws (Fixture.world ∅) |}).
Proof.
  apply (refused_download_is_not_rolled_back Scenario.archive_missing_machine "0.9.0"
           (Fixture.world ∅)
           {| versions := [JStr "0.10.0"; JStr "0.9.0"]; latestVersion := JStr "0.10.0" |}
           "/usr/local" ∅
           {| ok := false; status := 404; text := Normal "Not Found";
              arrayBuffer := Normal "Not Found" |});
    try reflexivity.
  by right.
Defined.

(** X9. Listing the versions never touches the disk and always ends.  When
    it succeeds the request is all that happened; when it fails, for
    whatever reason, the failure was written once on the error console
    and is the very value thrown. *)
Theorem listing_failure_is_logged_and_rethrown E w :
  match getVersionsFromMaven E w with
  | (Returned _, w') => w' = recorded [NetFetch MAVEN_METADATA_URL] w
  | (Threw e, w') =>
      w' = recorded
             [NetFetch MAVEN_METADATA_URL;
              ConsoleError [Text "Error fetching versions from Maven:"; Caught e]] w
  | (Hung, _) => False
  end.
Proof.
  rewrite getVersions_eq.
  destruct (fetch E MAVEN_METADATA_URL) as [response|e]; [|done].
  match goal with |- context [match ?c with Normal _ => _ | Abrupt _ => _ end] =>
    by destruct c end.
Qed.

(** X10. An index that answers with a status outside 2xx makes the listing
    fail with the HTTP error that carries the status; the body is neither
    read nor parsed. *)
Theorem refused_index_reports_status E w response :
  fetch E MAVEN_METADATA_URL = Normal response →
  ok response = false →
  getVersionsFromMaven E w
  = (Threw (Error ("HTTP error! status: " +:+ pretty (status response))),
     recorded
       [NetFetch MAVEN_METADATA_URL;
        ConsoleError [Text "Error fetching versions from Maven:";
                      Caught (Error ("HTTP error! status: "
                                     +:+ pretty (status response)))]] w).
Proof. intros Hfetch Hrefused. by rewrite getVersions_eq, Hfetch, Hrefused. Qed.

Lemma refused_index_reports_status_witness :
  getVersionsFromMaven Scenario.unavailable_machine (Fixture.world ∅)
  = (Threw (Error ("HTTP error! status: " +:+ pretty 503%Z)),
     recorded
       [NetFetch MAVEN_METADATA_URL;
        ConsoleError [Text "Error fetching versions from Maven:";
                      Caught (Error ("HTTP error! status: " +:+ pretty 503%Z))]]
       (Fixture.world ∅)).
Proof.
  apply (refused_index_reports_status Scenario.unavailable_machine (Fixture.world ∅)
           {| ok := false; status := 503; text := Normal "Service Unavailable";
              arrayBuffer := Normal "Service Unavailable" |});
    reflexivity.
Defined.

(** X11. A download asks exactly one address, the one built from the text of
    the version, after saying so on the console; it never touches the
    disk and always ends.  A body is returned only from a response that
    was ok; any failure was written once on the error console and is the
    very value thrown. *)
Theorem download_asks_once E version w :
  let url := MAVEN_DOWNLOAD_URL (Js.ToString version) in
  let asked :=
    [ConsoleLog [Text ("Downloading version " +:+ Js.ToString version +:+ " from "
                       +:+ url)];
     NetFetch url] in
  match downloadFromMaven E version w with
  | (Returned body, w') =>
      w' = recorded asked w
      ∧ ∃ response,
          fetch E url = Normal response ∧ ok response = true
          ∧ arrayBuffer response = Normal body
  | (Threw e, w') =>
      w' = recorded
             (asked ++ [ConsoleError [Text ("Error downloading version "
                                            +:+ Js.ToString version +:+ ":");
                                      Caught e]]) w
  | (Hung, _) => False
  end.
Proof.
  rewrite download_eq. cbv zeta.
  destruct (fetch E _) as [response|e] eqn:Hfetch; [|done].
  destruct (ok response) eqn:Hok; [|done].
  destruct (arrayBuffer response) as [body|e] eqn:Hbody; [|done].
  split; [done|]. by exists response.
Qed.

Lemma getVersions_comes_back E : never_hangs (getVersionsFromMaven E).
Proof. unfold getVersionsFromMaven, js_fetch, console_error. comes_back. Qed.

Lemma download_comes_back E version : never_hangs (downloadFromMaven E version).
Proof. unfold downloadFromMaven, js_fetch, console_log, console_error. comes_back. Qed.

Lemma install_steps_come_back E version : never_hangs (install_steps E version).
Proof.
  unfold install_steps, console_log, existsSync.
  comes_back; apply download_comes_back.
Qed.

(** X15. An installation fails in one way only.  The call throws exactly
    when listing the versions throws, or when the selector is accepted
    and a step of the installation throws; what it throws is then the
    error whose message is Failed to install METASCHEMA CLI, followed by
    the message of what that listing or step threw, and the world is as
    the failing step left it. *)
Theorem install_failure_is_install_error E selector w e w' :
  installMetaschemaCli E selector w = (Threw e, w')
  ↔ ∃ cause,
      e = Error ("Failed to install METASCHEMA CLI: " +:+ Js.message_of cause)
      ∧ (getVersionsFromMaven E w = (Threw cause, w')
         ∨ ∃ info w1,
             getVersionsFromMaven E w = (Returned info, w1)
             ∧ (selector = "latest" ∨ Js.includes (versions info) selector = true)
             ∧ install_steps E (chosen_version info selector) w1 = (Threw cause, w')).
Proof.
  unfold installMetaschemaCli, try_catch, bind at 1, chosen_version.
  destruct (getVersionsFromMaven E w) as [[info|cause|] w1].
  - destruct (String.eqb_spec selector "latest") as [->|Hnamed].
    + destruct (install_steps E (latestVersion info) w1) as [[[]|cause|] w2] eqn:Hsteps.
      * split; [done|]. intros (cause & _ & [[=] | (info' & w1' & [= <- <-] & _ & Hthrown)]).
        rewrite Hsteps in Hthrown. done.
      * split.
        -- intros [= <- <-]. exists cause. split; [done|]. right.
           exists info, w1. by rewrite Hsteps; eauto.
        -- intros (cause' & -> & [[=] | (info' & w1' & [= <- <-] & _ & Hthrown)]).
           rewrite Hsteps in Hthrown. by injection Hthrown as <- <-.
      * split; [done|]. intros (cause & _ & [[=] | (info' & w1' & [= <- <-] & _ & Hthrown)]).
        rewrite Hsteps in Hthrown. done.
    + destruct (Js.includes (versions info) selector) eqn:Hknown; cbn [negb].
      * destruct (install_steps E (JStr selector) w1) as [[[]|cause|] w2] eqn:Hsteps.
        -- split; [done|].
           intros (cause & _ & [[=] | (info' & w1' & [= <- <-] & _ & Hthrown)]).
           rewrite Hsteps in Hthrown. done.
        -- split.
           ++ intros [= <- <-]. exists cause. split; [done|]. right.
              exists info, w1. rewrite Hsteps. eauto.
           ++ intros (cause' & -> & [[=] | (info' & w1' & [= <- <-] & _ & Hthrown)]).
              rewrite Hsteps in Hthrown. by injection Hthrown as <- <-.
        -- split; [done|].
           intros (cause & _ & [[=] | (info' & w1' & [= <- <-] & _ & Hthrown)]).
           rewrite Hsteps in Hthrown. done.
      * unfold bind, console_error. rewrite !emit_eq. split; [done|].
        intros (cause & _ & [[=] | (info' & w1' & [= <- <-] & [Hlatest|Hin] & _)]);
          [done | by rewrite Hknown in Hin].
  - split.
    + intros [= <- <-]. exists cause. split; [done | by left].
    + intros (cause' & -> & [[= <- <-] | (info' & w1' & [=] & _)]). done.
  - split; [done|]. intros (cause & _ & [[=] | (info' & w1' & [=] & _)]).
Qed.

(** Without a network the listing throws, and that is what the caller is
    told. *)
Lemma install_failure_is_install_error_witness :
  installMetaschemaCli Fixture.failing_machine "latest" (Fixture.world ∅)
  = (Threw (Error "Failed to install METASCHEMA CLI: fetch failed"),
     (getVersionsFromMaven Fixture.failing_machine (Fixture.world ∅)).2).
Proof.
  apply (proj2 (install_failure_is_install_error Fixture.failing_machine "latest"
                  (Fixture.world ∅) _ _)).
  exists (TypeError "fetch failed"). split; [reflexivity | left; reflexivity].
Defined.

(** ** Command runner *)

(** Up to the spawn the runner does the same whatever comes after. *)
Lemma execute_spawned E command args showLoader w path w1 events disk :
  findMetaschemaCliPath E w = (Returned path, w1) →
  (let '(file, argv, verbatim) := spawnArgs E path (command :: args) in
   child_spawn E file argv verbatim (fs w1) = (Normal events, disk)) →
  executeMetaschemaCliCommand E command args showLoader w
  = bind (deliver showLoader events
            {| stdout := EmptyString; stderr := EmptyString; loadingIndex := 0;
               ticking := showLoader; settled := Pending |})
      (λ st, await (settled st))
      (let '(file, argv, verbatim) := spawnArgs E path (command :: args) in
       {| fs := disk;
          trace := trace w1
                   ++ [ConsoleLog [Text (chalk E green "metaschema-cli "
                                         +:+ chalk E blue command +:+ " "
                                         +:+ Str.join " " args)];
                       ProcSpawn file argv verbatim];
          draws := draws w1 |}).
Proof.
  intros Hlocate Hspawn.
  unfold executeMetaschemaCliCommand.
  rewrite (bind_returned _ _ _ _ _ Hlocate). cbv zeta.
  unfold console_log. rewrite bind_emit.
  revert Hspawn.
  destruct (spawnArgs E path (command :: args)) as [[file argv] verbatim].
  intros Hspawn. cbv beta iota.
  rewrite (bind_on_disk_normal _ _ _ _ events disk) by exact Hspawn.
  unfold recorded; cbn [fs trace draws]. by rewrite <- app_assoc.
Qed.

(** X16. When the tool is not found the runner fails with Not-Found, and all
    it did is the search: nothing is spawned. *)
Theorem run_without_tool_spawns_nothing E command args showLoader w e :
  child_exec E (search_command E "metaschema-cli") (fs w) = Abrupt e →
  executeMetaschemaCliCommand E command args showLoader w
  = (Threw (Error "METASCHEMA CLI not found"),
     recorded [ProcExec (search_command E "metaschema-cli")] w).
Proof.
  intros Hsearch. unfold executeMetaschemaCliCommand.
  by rewrite (bind_threw _ _ _ _ _ (locate_search_error _ _ _ Hsearch)).
Qed.

Lemma run_without_tool_spawns_nothing_witness :
  executeMetaschemaCliCommand Fixture.index_machine "validate" ["doc.xml"] true
    (Fixture.world ∅)
  = (Threw (Error "METASCHEMA CLI not found"),
     recorded [ProcExec (search_command Fixture.index_machine "metaschema-cli")]
       (Fixture.world ∅)).
Proof.
  apply (run_without_tool_spawns_nothing Fixture.index_machine "validate" ["doc.xml"]
           true (Fixture.world ∅) (Error "Command failed: which metaschema-cli")).
  reflexivity.
Defined.

(** X17. An error event before any close settles the call: it fails with the
    Spawn error that carries the message of the event, and a close event
    that follows, whatever its code, changes nothing. *)
Theorem spawn_error_settles_first
    E command args showLoader w path w1 pre message post disk :
  findMetaschemaCliPath E w = (Returned path, w1) →
  (let '(file, argv, verbatim) := spawnArgs E path (command :: args) in
   child_spawn E file argv verbatim (fs w1)
   = (Normal (pre ++ ErrorEvent message :: post), disk)) →
  Forall (λ ev, is_output ev = true) pre →
  (executeMetaschemaCliCommand E command args showLoader w).1
  = Threw (Error ("Failed to start METASCHEMA CLI process: " +:+ message)).
Proof.
  intros Hlocate Hspawn Hpre.
  rewrite (execute_spawned _ _ _ _ _ _ _ _ _ Hlocate Hspawn).
  match goal with |- (bind _ _ ?w').1 = _ => generalize w'; intros w2 end.
  unfold bind at 1. rewrite deliver_app. unfold bind at 1.
  edestruct (deliver_output showLoader pre Hpre) as (st1 & w3 & -> & _ & _ & Hset).
  cbn [settled] in Hset. cbn [deliver]. unfold bind at 1.
  assert (∃ st2 w4,
            on_event showLoader st1 (ErrorEvent message) w3 = (Returned st2, w4)
            ∧ settled st2
              = Rejected (Error ("Failed to start METASCHEMA CLI process: "
                                 +:+ message)))
    as (st2 & w4 & -> & Hset2).
  { eexists _, _. split; [reflexivity|]. simpl. by rewrite Hset. }
  destruct (deliver_settled showLoader post st2 w4) as (st' & w' & -> & Hset');
    [by rewrite Hset2|].
  by rewrite Hset', Hset2.
Qed.

Lemma spawn_error_settles_first_witness :
  (executeMetaschemaCliCommand Scenario.broken_tool_machine "validate" ["doc.xml"] true
     (Fixture.world ∅)).1
  = Threw (Error ("Failed to start METASCHEMA CLI process: " +:+ "spawn EACCES")).
Proof.
  apply (spawn_error_settles_first Scenario.broken_tool_machine "validate" ["doc.xml"]
           true (Fixture.world ∅) "/usr/local/bin/metaschema-cli"
           (recorded [ProcExec "which metaschema-cli"] (Fixture.world ∅))
           [] "spawn EACCES" [CloseEvent (Some (-13)%Z)] ∅);
    [reflexivity | reflexivity | constructor].
Defined.

(** X18. There is no timeout: a child that writes and never closes leaves the
    call waiting for ever. *)
Theorem silent_child_hangs_caller
    E command args showLoader w path w1 events disk :
  findMetaschemaCliPath E w = (Returned path, w1) →
  (let '(file, argv, verbatim) := spawnArgs E path (command :: args) in
   child_spawn E file argv verbatim (fs w1) = (Normal events, disk)) →
  Forall (λ ev, is_output ev = true) events →
  (executeMetaschemaCliCommand E command args showLoader w).1 = Hung.
Proof.
  intros Hlocate Hspawn Hquiet.
  rewrite (execute_spawned _ _ _ _ _ _ _ _ _ Hlocate Hspawn).
  match goal with |- (bind _ _ ?w').1 = _ => generalize w'; intros w2 end.
  unfold bind at 1.
  edestruct (deliver_output showLoader events Hquiet) as (st1 & w3 & -> & _ & _ & Hset).
  cbn [settled] in Hset. by rewrite Hset.
Qed.

Lemma silent_child_hangs_caller_witness :
  (executeMetaschemaCliCommand Scenario.stuck_machine "validate" ["doc.xml"] true
     (Fixture.world ∅)).1 = Hung.
Proof.
  apply (silent_child_hangs_caller Scenario.stuck_machine "validate" ["doc.xml"] true
           (Fixture.world ∅) "/usr/local/bin/metaschema-cli"
           (recorded [ProcExec "which metaschema-cli"] (Fixture.world ∅))
           [StdoutData "working"; TimerTick; TimerTick] ∅);
    [reflexivity | reflexivity | repeat constructor].
Defined.

Lemma on_event_cosmetic showLoader1 showLoader2 st1 st2 ev w1 w2 :
  same_capture st1 st2 → fs w1 = fs w2 →
  ∃ st1' w1' st2' w2',
    on_event showLoader1 st1 ev w1 = (Returned st1', w1')
    ∧ on_event showLoader2 st2 ev w2 = (Returned st2', w2')
    ∧ same_capture st1' st2' ∧ fs w1' = fs w2'.
Proof.
  intros (Hout & Herr & Hset) Hfs. unfold same_capture.
  destruct ev as [chunk|chunk|message|code|]; simpl.
  - eexists _, _, _, _. split; [done|]. split; [done|]. simpl.
    by rewrite Hout, Herr, Hset.
  - eexists _, _, _, _. split; [done|]. split; [done|]. simpl.
    by rewrite Hout, Herr, Hset.
  - eexists _, _, _, _. split; [done|]. split; [done|]. simpl.
    by rewrite Hout, Herr, Hset.
  - destruct showLoader1, showLoader2; eexists _, _, _, _;
      (split; [reflexivity|]); (split; [reflexivity|]); simpl;
      by rewrite Hout, Herr, Hset.
  - destruct (ticking st1), (ticking st2); eexists _, _, _, _;
      (split; [reflexivity|]); (split; [reflexivity|]); simpl; done.
Qed.

Lemma deliver_cosmetic showLoader1 showLoader2 events :
  ∀ st1 st2 w1 w2,
    same_capture st1 st2 → fs w1 = fs w2 →
    ∃ st1' w1' st2' w2',
      deliver showLoader1 events st1 w1 = (Returned st1', w1')
      ∧ deliver showLoader2 events st2 w2 = (Returned st2', w2')
      ∧ same_capture st1' st2' ∧ fs w1' = fs w2'.
Proof.
  induction events as [|ev events IH]; intros st1 st2 w1 w2 Hsame Hfs.
  - by eexists _, _, _, _.
  - destruct (on_event_cosmetic showLoader1 showLoader2 st1 st2 ev w1 w2 Hsame Hfs)
      as (sa & wa & sb & wb & Ha & Hb & Hsame' & Hfs').
    destruct (IH sa sb wa wb Hsame' Hfs')
      as (st1' & w1' & st2' & w2' & Hda & Hdb & Hsame'' & Hfs'').
    exists st1', w1', st2', w2'. cbn [deliver]. unfold bind.
    by rewrite Ha, Hb, Hda, Hdb.
Qed.

Lemma await_eq {A} (p : Promise A) w :
  await p w
  = (match p with
     | Fulfilled a => Returned a
     | Rejected e => Threw e
     | Pending => Hung
     end, w).
Proof. by destruct p. Qed.

Lemma execute_unfold E command args showLoader w :
  executeMetaschemaCliCommand E command args showLoader w
  = match findMetaschemaCliPath E w with
    | (Returned path, w1) =>
        let '(file, argv, verbatim) := spawnArgs E path (command :: args) in
        let spawned disk :=
          {| fs := disk;
             trace := trace w1
                      ++ [ConsoleLog [Text (chalk E green "metaschema-cli "
                                            +:+ chalk E blue command +:+ " "
                                            +:+ Str.join " " args)];
                          ProcSpawn file argv verbatim];
             draws := draws w1 |} in
        match child_spawn E file argv verbatim (fs w1) with
        | (Normal events, disk) =>
            bind (deliver showLoader events
                    {| stdout := EmptyString; stderr := EmptyString;
                       loadingIndex := 0; ticking := showLoader;
                       settled := Pending |})
              (λ st, await (settled st)) (spawned disk)
        | (Abrupt e, disk) => (Threw e, spawned disk)
        end
    | (Threw e, w1) => (Threw e, w1)
    | (Hung, w1) => (Hung, w1)
    end.
Proof.
  unfold executeMetaschemaCliCommand, bind at 1.
  destruct (findMetaschemaCliPath E w) as [[path|e|] w1]; [|done..].
  cbv zeta. unfold console_log. rewrite bind_emit.
  destruct (spawnArgs E path (command :: args)) as [[file argv] verbatim].
  unfold bind at 1. rewrite on_disk_eq. cbn [recorded fs trace draws].
  destruct (child_spawn E file argv verbatim (fs w1)) as [[events|e] disk];
    cbn [fst snd]; by rewrite <- app_assoc.
Qed.

(** X19. The progress indicator is cosmetic: with it or without it the call
    ends the same way, with the same captured output or the same error,
    and leaves the same disk. *)
Theorem loader_is_cosmetic E command args w :
  (executeMetaschemaCliCommand E command args true w).1
  = (executeMetaschemaCliCommand E command args false w).1
  ∧ fs (executeMetaschemaCliCommand E command args true w).2
    = fs (executeMetaschemaCliCommand E command args false w).2.
Proof.
  rewrite !execute_unfold.
  destruct (findMetaschemaCliPath E w) as [[path|e|] w1]; [|done..].
  destruct (spawnArgs E path (command :: args)) as [[file argv] verbatim].
  cbv zeta.
  destruct (child_spawn E file argv verbatim _) as [[events|e] disk]; [|done].
  set (w2 := {| fs := disk; trace := _; draws := _ |}).
  unfold bind.
  destruct (deliver_cosmetic true false events
              {| stdout := EmptyString; stderr := EmptyString; loadingIndex := 0;
                 ticking := true; settled := Pending |}
              {| stdout := EmptyString; stderr := EmptyString; loadingIndex := 0;
                 ticking := false; settled := Pending |} w2 w2)
    as (st1 & w3 & st2 & w4 & -> & -> & (_ & _ & Hset) & Hfs); [done..|].
  rewrite Hset, !await_eq. by cbn [fst snd].
Qed.

Lemma on_event_quiet st ev w :
  ticking st = false →
  ∃ st', on_event false st ev w = (Returned st', w) ∧ ticking st' = false.
Proof.
  intros Hoff. destruct ev; simpl; rewrite ?Hoff; by eexists.
Qed.

Lemma deliver_quiet events :
  ∀ st w, ticking st = false →
          ∃ st', deliver false events st w = (Returned st', w).
Proof.
  induction events as [|ev events IH]; intros st w Hoff; [by eexists|].
  destruct (on_event_quiet st ev w Hoff) as (st1 & Hstep & Hoff1).
  destruct (IH st1 w Hoff1) as (st' & Hrest).
  exists st'. cbn [deliver]. unfold bind. by rewrite Hstep, Hrest.
Qed.

(** X20. Without the progress indicator the runner makes no call of
    [process.stdout.write]: no glyph at a tick, no clearing of the line at
    the close.  All it records is the search for the tool and, when the
    tool is found, the one [console.log] of the command line and the
    spawn, whatever the child does afterwards. *)
Theorem quiet_run_records_search_log_spawn E command args w :
  trace (executeMetaschemaCliCommand E command args false w).2
  = trace w
    ++ ProcExec (search_command E "metaschema-cli")
       :: match (findMetaschemaCliPath E w).1 with
          | Returned path =>
              [ConsoleLog [Text (chalk E green "metaschema-cli "
                                 +:+ chalk E blue command +:+ " "
                                 +:+ Str.join " " args)];
               ProcSpawn (spawnArgs E path (command :: args)).1.1
                         (spawnArgs E path (command :: args)).1.2
                         (spawnArgs E path (command :: args)).2]
          | _ => []
          end.
Proof.
  rewrite execute_unfold, locate_eq.
  set (found := match child_exec E _ _ with Normal _ => _ | Abrupt _ => _ end).
  destruct found as [path|e|]; cbn [recorded fs trace draws fst snd]; [|done..].
  destruct (spawnArgs E path (command :: args)) as [[file argv] verbatim].
  cbv zeta. cbn [fst snd].
  destruct (child_spawn E file argv verbatim _) as [[events|e] disk].
  - unfold bind.
    edestruct (deliver_quiet events) as (st' & ->); [done|].
    rewrite await_eq. cbn [snd trace]. by rewrite <- !app_assoc.
  - cbn [snd trace]. by rewrite <- !app_assoc.
Qed.

(** A run that prints and closes, followed without the indicator. *)
Example quiet_passing_run :
  trace (executeMetaschemaCliCommand Fixture.passing_machine "validate" ["doc.xml"]
           false (Fixture.world ∅)).2
  = [ProcExec "which metaschema-cli";
     ConsoleLog [Text "metaschema-cli validate doc.xml"];
     ProcSpawn "/usr/local/bin/metaschema-cli" ["validate"; "doc.xml"] false].
Proof. reflexivity. Qed.

(** ** Result-log reader *)

Lemma read_and_remove_file E path w content :
  fs w !! path = Some (File content) →
  read_and_remove E path w
  = (match JSON_parse E content with
     | Normal v => Returned v
     | Abrupt e => Threw e
     end,
     {| fs := delete path (fs w);
        trace := trace w ++ [FsReadFile path; FsRm path];
        draws := draws w |}).
Proof.
  intros Hfile. unfold read_and_remove.
  rewrite (bind_returned _ _ _ _ _ (readFileSync_file _ _ _ Hfile)).
  unfold rmSync. erewrite bind_on_disk_normal;
    [| unfold rm_from; cbn [recorded fs]; by rewrite Hfile].
  unfold recorded; cbn [fs trace draws]. rewrite <- app_assoc.
  by destruct (JSON_parse E content).
Qed.

(** X21. A run that succeeds and leaves a log that parses: the call returns
    the parsed log, after echoing the output of the tool; the log file is
    read once and removed, and the disk is otherwise as the tool left
    it. *)
Theorem validate_returns_parsed_log E args w out err w1 content v :
  validate_run E args w = (Returned (out, err), w1) →
  fs w1 !! tempFile_of E w = Some (File content) →
  JSON_parse E content = Normal v →
  validateWithSarif E args w
  = (Returned v,
     {| fs := delete (tempFile_of E w) (fs w1);
        trace := trace w1
                 ++ [ConsoleLog [Text out]; ConsoleError [Text (chalk E red err)];
                     FsReadFile (tempFile_of E w); FsRm (tempFile_of E w)];
        draws := draws w1 |}).
Proof.
  intros Hrun Hfile Hparse. rewrite validate_eq. cbv zeta.
  unfold validate_run, sarif_args, drawn in Hrun. rewrite Hrun.
  unfold try_catch. rewrite (read_and_remove_file _ _ _ content) by exact Hfile.
  rewrite Hparse. unfold recorded; cbn [fs trace draws]. by rewrite <- app_assoc.
Qed.

Lemma validate_returns_parsed_log_witness :
  validateWithSarif Fixture.passing_machine ["doc.xml"] (Fixture.world ∅)
  = (Returned (JObj []),
     {| fs := delete (tempFile_of Fixture.passing_machine (Fixture.world ∅))
                (fs (validate_run Fixture.passing_machine ["doc.xml"]
                       (Fixture.world ∅)).2);
        trace := trace (validate_run Fixture.passing_machine ["doc.xml"]
                          (Fixture.world ∅)).2
                 ++ [ConsoleLog [Text "checked 1 file"];
                     ConsoleError [Text (chalk Fixture.passing_machine red "warning")];
                     FsReadFile (tempFile_of Fixture.passing_machine (Fixture.world ∅));
                     FsRm (tempFile_of Fixture.passing_machine (Fixture.world ∅))];
        draws := draws (validate_run Fixture.passing_machine ["doc.xml"]
                          (Fixture.world ∅)).2 |}).
Proof.
  apply (validate_returns_parsed_log Fixture.passing_machine ["doc.xml"]
           (Fixture.world ∅) "checked 1 file" "warning" _ "{}" (JObj [])).
  - reflexivity.
  - vm_compute. reflexivity.
  - reflexivity.
Defined.

(** X22. A run that fails but leaves a log that parses is not an error for the
    caller: the call returns the parsed log and removes the file, after
    printing the failure of the run. *)
Theorem failed_run_with_log_returns_log E args w error w1 content v :
  validate_run E args w = (Threw error, w1) →
  fs w1 !! tempFile_of E w = Some (File content) →
  JSON_parse E content = Normal v →
  validateWithSarif E args w
  = (Returned v,
     {| fs := delete (tempFile_of E w) (fs w1);
        trace := trace w1
                 ++ [ConsoleError [Text (chalk E red (Js.describe error))];
                     FsExists (tempFile_of E w);
                     FsReadFile (tempFile_of E w); FsRm (tempFile_of E w)];
        draws := draws w1 |}).
Proof.
  intros Hrun Hfile Hparse. rewrite validate_eq. cbv zeta.
  unfold validate_run, sarif_args, drawn in Hrun. rewrite Hrun.
  unfold on_failed_run, console_error. rewrite bind_emit.
  unfold bind at 1. rewrite existsSync_eq.
  unfold exists_on. cbn [recorded fs]. rewrite Hfile.
  rewrite bool_decide_eq_true_2 by eauto. cbn [negb].
  rewrite (read_and_remove_file _ _ _ content) by exact Hfile.
  rewrite Hparse. unfold recorded; cbn [fs trace draws]. by rewrite <- !app_assoc.
Qed.

Lemma failed_run_with_log_returns_log_witness :
  validateWithSarif Scenario.findings_machine ["doc.xml"] (Fixture.world ∅)
  = (Returned (JObj []),
     {| fs := delete (tempFile_of Scenario.findings_machine (Fixture.world ∅))
                (fs (validate_run Scenario.findings_machine ["doc.xml"]
                       (Fixture.world ∅)).2);
        trace := trace (validate_run Scenario.findings_machine ["doc.xml"]
                          (Fixture.world ∅)).2
                 ++ [ConsoleError
                       [Text (chalk Scenario.findings_machine red
                                (Js.describe (exit_error (Some 1%Z) "2 errors")))];
                     FsExists (tempFile_of Scenario.findings_machine (Fixture.world ∅));
                     FsReadFile (tempFile_of Scenario.findings_machine (Fixture.world ∅));
                     FsRm (tempFile_of Scenario.findings_machine (Fixture.world ∅))];
        draws := draws (validate_run Scenario.findings_machine ["doc.xml"]
                          (Fixture.world ∅)).2 |}).
Proof.
  apply (failed_run_with_log_returns_log Scenario.findings_machine ["doc.xml"]
           (Fixture.world ∅) (exit_error (Some 1%Z) "2 errors") _ "{}" (JObj [])).
  - reflexivity.
  - vm_compute. reflexivity.
  - reflexivity.
Defined.

(** X23. A log that does not parse.  After a run that succeeded the parser's
    error comes back wrapped as the Log-Parse error; after a run that
    failed it comes back as the parser threw it.  Either way the file was
    removed before the parse, so the disk is without it. *)
Theorem unparsable_log_is_wrapped_only_after_success E args w content cause :
  fs (validate_run E args w).2 !! tempFile_of E w = Some (File content) →
  JSON_parse E content = Abrupt cause →
  (validateWithSarif E args w).1
  = match (validate_run E args w).1 with
    | Returned _ =>
        Threw (Error ("Failed to read or parse SARIF output: " +:+ Js.describe cause))
    | Threw _ => Threw cause
    | Hung => Hung
    end
  ∧ ((validate_run E args w).1 ≠ Hung →
     fs (validateWithSarif E args w).2
     = delete (tempFile_of E w) (fs (validate_run E args w).2)).
Proof.
  intros Hfile Hparse. rewrite validate_eq. cbv zeta.
  unfold validate_run, sarif_args, drawn in *.
  destruct (executeMetaschemaCliCommand E _ _ _ _) as [[[out err]|error|] w1];
    cbn [fst snd] in *.
  - unfold try_catch. rewrite (read_and_remove_file _ _ _ content) by exact Hfile.
    by rewrite Hparse.
  - unfold on_failed_run, console_error. rewrite bind_emit.
    unfold bind. rewrite existsSync_eq.
    unfold exists_on. cbn [recorded fs]. rewrite Hfile.
    rewrite bool_decide_eq_true_2 by eauto. cbn [negb].
    rewrite (read_and_remove_file _ _ _ content) by exact Hfile.
    by rewrite Hparse.
  - done.
Qed.

Lemma unparsable_log_is_wrapped_only_after_success_witness :
  ((validateWithSarif Scenario.garbled_pass_machine ["doc.xml"] (Fixture.world ∅)).1
   = Threw (Error ("Failed to read or parse SARIF output: "
                   +:+ Js.describe (JsError "SyntaxError" "Unexpected token"))))
  ∧ (validateWithSarif Scenario.garbled_fail_machine ["doc.xml"] (Fixture.world ∅)).1
    = Threw (JsError "SyntaxError" "Unexpected token").
Proof.
  split.
  - refine (proj1 (unparsable_log_is_wrapped_only_after_success
                     Scenario.garbled_pass_machine ["doc.xml"] (Fixture.world ∅) "{"
                     (JsError "SyntaxError" "Unexpected token") _ _));
      [vm_compute; reflexivity | reflexivity].
  - refine (proj1 (unparsable_log_is_wrapped_only_after_success
                     Scenario.garbled_fail_machine ["doc.xml"] (Fixture.world ∅) "{"
                     (JsError "SyntaxError" "Unexpected token") _ _));
      [vm_compute; reflexivity | reflexivity].
Defined.

(** X24. A run that succeeds without leaving a log that can be read: the
    call fails with the Log-Parse error around the error of the read, and
    changes nothing on the disk. *)
Theorem success_without_log_is_log_error E args w out err w1 cause :
  validate_run E args w = (Returned (out, err), w1) →
  read_from (fs w1) (tempFile_of E w) = Abrupt cause →
  validateWithSarif E args w
  = (Threw (Error ("Failed to read or parse SARIF output: " +:+ Js.describe cause)),
     {| fs := fs w1;
        trace := trace w1
                 ++ [ConsoleLog [Text out]; ConsoleError [Text (chalk E red err)];
                     FsReadFile (tempFile_of E w)];
        draws := draws w1 |}).
Proof.
  intros Hrun Hread. rewrite validate_eq. cbv zeta.
  unfold validate_run, sarif_args, drawn in Hrun. rewrite Hrun.
  unfold try_catch, read_and_remove, bind at 1, readFileSync. rewrite query_eq.
  cbn [recorded fs]. rewrite Hread.
  unfold throw, recorded; cbn [fs trace draws]. by rewrite <- app_assoc.
Qed.

Lemma success_without_log_is_log_error_witness :
  validateWithSarif Scenario.forgetful_machine ["doc.xml"] (Fixture.world ∅)
  = (Threw (Error ("Failed to read or parse SARIF output: "
                   +:+ Js.describe
                         (Error "ENOENT: no such file or directory, open 'metaschema-cli-sarif-log-id0.json'"))),
     {| fs := fs (validate_run Scenario.forgetful_machine ["doc.xml"]
                    (Fixture.world ∅)).2;
        trace := trace (validate_run Scenario.forgetful_machine ["doc.xml"]
                          (Fixture.world ∅)).2
                 ++ [ConsoleLog [Text EmptyString];
                     ConsoleError [Text (chalk Scenario.forgetful_machine red EmptyString)];
                     FsReadFile (tempFile_of Scenario.forgetful_machine (Fixture.world ∅))];
        draws := draws (validate_run Scenario.forgetful_machine ["doc.xml"]
                          (Fixture.world ∅)).2 |}).
Proof.
  apply (success_without_log_is_log_error Scenario.forgetful_machine ["doc.xml"]
           (Fixture.world ∅) EmptyString EmptyString);
    reflexivity.
Defined.

Lemma read_and_remove_world E path w :
  (fs (read_and_remove E path w).2 = fs w
   ∨ fs (read_and_remove E path w).2 = delete path (fs w))
  ∧ ∃ added, trace (read_and_remove E path w).2 = trace w ++ added.
Proof.
  rewrite read_and_remove_eq.
  destruct (read_from (fs w) path) as [content|e]; [| by eauto].
  unfold rm_from.
  destruct (fs w !! path) as [[c| |c r []]|]; cbn; eauto.
Qed.

(** What the call adds to the world the run left: the disk is the same
    with at most the log file removed, and the trace is only extended. *)
Lemma validate_after_run E args w :
  (fs (validateWithSarif E args w).2 = fs (validate_run E args w).2
   ∨ fs (validateWithSarif E args w).2
     = delete (tempFile_of E w) (fs (validate_run E args w).2))
  ∧ ∃ added,
      trace (validateWithSarif E args w).2 = trace (validate_run E args w).2 ++ added.
Proof.
  rewrite validate_eq. cbv zeta. unfold validate_run, sarif_args, drawn.
  destruct (executeMetaschemaCliCommand E _ _ _ _) as [[[out err]|error|] w1];
    cbn [fst snd].
  - rewrite try_catch_rethrow_world.
    destruct (read_and_remove_world E (tempFile_of E w)
                (recorded [ConsoleLog [Text out];
                           ConsoleError [Text (chalk E red err)]] w1))
      as [Hdisk [added Htrace]].
    split; [exact Hdisk|]. rewrite Htrace. cbn [recorded trace].
    rewrite <- app_assoc. by eexists.
  - rewrite on_failed_run_eq. cbv zeta.
    destruct (exists_on _ _).
    + destruct (read_and_remove_world E (tempFile_of E w)
                  (recorded [ConsoleError [Text (chalk E red (Js.describe error))];
                             FsExists (tempFile_of E w)] w1))
        as [Hdisk [added Htrace]].
      split; [exact Hdisk|]. rewrite Htrace. cbn [recorded trace].
      rewrite <- app_assoc. by eexists.
    + cbn [snd recorded fs trace]. split; [by left | by eexists].
  - split; [by left | exists []; by rewrite app_nil_r].
Qed.

(** X25. The call removes nothing but its own log and creates nothing: every
    other path holds after the call what the run of the tool left
    there. *)
Theorem validate_spares_other_files E args w path :
  path ≠ tempFile_of E w →
  fs (validateWithSarif E args w).2 !! path = fs (validate_run E args w).2 !! path.
Proof.
  intros Hother.
  destruct (validate_after_run E args w) as [[-> | ->] _]; [done|].
  by rewrite lookup_delete_ne.
Qed.

Lemma validate_spares_other_files_witness :
  fs (validateWithSarif Fixture.passing_machine ["doc.xml"]
        (Fixture.world (Fixture.disk_with "doc.xml" "<METASCHEMA/>"))).2 !! "doc.xml"
  = fs (validate_run Fixture.passing_machine ["doc.xml"]
          (Fixture.world (Fixture.disk_with "doc.xml" "<METASCHEMA/>"))).2 !! "doc.xml".
Proof.
  apply (validate_spares_other_files Fixture.passing_machine ["doc.xml"]
           (Fixture.world (Fixture.disk_with "doc.xml" "<METASCHEMA/>")) "doc.xml").
  vm_compute. discriminate.
Defined.



Example validate_spawn_arguments :
  spawnArgs Fixture.passing_machine "/usr/local/bin/metaschema-cli"
    ("validate" :: sarif_args Fixture.passing_machine (Fixture.world ∅) ["doc.xml"])
  = ("/usr/local/bin/metaschema-cli",
     ["validate"; "doc.xml"; "-o"; "metaschema-cli-sarif-log-id0.json";
      "--sarif-include-pass"; "--show-stack-trace"],
     false).
Proof. reflexivity. Qed.

(** ** The entry point *)

(** X27. For every command but use, when the tool is found installed the
    arguments are dispatched at once: the installer is not consulted, so
    no request is made and the disk is not touched before the dispatch. *)
Theorem run_dispatches_at_once_when_installed E parse argv w w1 :
  head (drop 2 argv) ≠ Some "use" →
  isMetaschemaCliInstalled E w = (Returned true, w1) →
  run E parse argv w = guarded_dispatch parse argv w1.
Proof.
  intros Hcommand Hinstalled. unfold run, guarded_dispatch.
  rewrite bool_decide_eq_false_2 by done.
  unfold try_catch. rewrite (bind_returned _ _ _ _ _ Hinstalled). cbn [negb].
  rewrite (bind_returned (ret tt) _ _ tt _ eq_refl). unfold bind.
  by destruct (parse argv w1) as [[[]|e|] w2].
Qed.

Lemma run_dispatches_at_once_when_installed_witness :
  run Fixture.failing_machine Scenario.echo_parse
    ["node"; "cli.js"; "validate"; "doc.xml"] (Fixture.world ∅)
  = guarded_dispatch Scenario.echo_parse ["node"; "cli.js"; "validate"; "doc.xml"]
      (recorded [ProcExec "which metaschema-cli"] (Fixture.world ∅)).
Proof.
  apply (run_dispatches_at_once_when_installed Fixture.failing_machine
           Scenario.echo_parse ["node"; "cli.js"; "validate"; "doc.xml"]
           (Fixture.world ∅)).
  - discriminate.
  - reflexivity.
Defined.

(** X28. For every command but use, when the tool is not found the latest
    version is installed first.  Only if that succeeds are the arguments
    dispatched; if it fails, the failure is printed, the process ends with
    status 1, and nothing is dispatched. *)
Theorem run_installs_before_dispatch E parse argv w w1 :
  head (drop 2 argv) ≠ Some "use" →
  isMetaschemaCliInstalled E w = (Returned false, w1) →
  run E parse argv w
  = match installMetaschemaCli E "latest" w1 with
    | (Returned _, w2) => guarded_dispatch parse argv w2
    | (Threw e, w2) =>
        (Returned (Exits 1), recorded [ConsoleError [Text "Error:"; Caught e]] w2)
    | (Hung, w2) => (Hung, w2)
    end.
Proof.
  intros Hcommand Hmissing. unfold run, guarded_dispatch.
  rewrite bool_decide_eq_false_2 by done.
  unfold try_catch. rewrite (bind_returned _ _ _ _ _ Hmissing). cbn [negb].
  unfold bind at 1.
  destruct (installMetaschemaCli E "latest" w1) as [[[]|e|] w2]; [|done..].
  unfold bind. by destruct (parse argv w2) as [[[]|e|] w3].
Qed.

Lemma run_installs_before_dispatch_witness :
  run Scenario.unavailable_machine Scenario.echo_parse
    ["node"; "cli.js"; "validate"; "doc.xml"] (Fixture.world ∅)
  = match installMetaschemaCli Scenario.unavailable_machine "latest"
            (recorded [ProcExec "which metaschema-cli"; FsExists "metaschema-cli"]
               (Fixture.world ∅)) with
    | (Returned _, w2) =>
        guarded_dispatch Scenario.echo_parse
          ["node"; "cli.js"; "validate"; "doc.xml"] w2
    | (Threw e, w2) =>
        (Returned (Exits 1), recorded [ConsoleError [Text "Error:"; Caught e]] w2)
    | (Hung, w2) => (Hung, w2)
    end.
Proof.
  apply (run_installs_before_dispatch Scenario.unavailable_machine Scenario.echo_parse
           ["node"; "cli.js"; "validate"; "doc.xml"] (Fixture.world ∅)).
  - discriminate.
  - reflexivity.
Defined.

(** The example ends with status 1: the index is unavailable. *)
Example run_without_index_exits :
  (run Scenario.unavailable_machine Scenario.echo_parse
     ["node"; "cli.js"; "validate"; "doc.xml"] (Fixture.world ∅)).1
  = Returned (Exits 1).
Proof. reflexivity. Qed.

(** The command use is dispatched without any look at the installation,
    and what its dispatch throws is not caught. *)
Theorem run_use_skips_the_check E parse argv w :
  head (drop 2 argv) = Some "use" →
  run E parse argv w
  = match parse argv w with
    | (Returned _, w') => (Returned Continues, w')
    | (Threw e, w') => (Threw e, w')
    | (Hung, w') => (Hung, w')
    end.
Proof.
  intros Hcommand. unfold run. rewrite bool_decide_eq_true_2 by done.
  unfold bind. by destruct (parse argv w) as [[[]|e|] w'].
Qed.

Lemma run_use_skips_the_check_witness :
  run Scenario.unavailable_machine Scenario.echo_parse
    ["node"; "cli.js"; "use"; "0.9.0"] (Fixture.world ∅)
  = match Scenario.echo_parse ["node"; "cli.js"; "use"; "0.9.0"] (Fixture.world ∅) with
    | (Returned _, w') => (Returned Continues, w')
    | (Threw e, w') => (Threw e, w')
    | (Hung, w') => (Hung, w')
    end.
Proof.
  apply (run_use_skips_the_check Scenario.unavailable_machine Scenario.echo_parse
           ["node"; "cli.js"; "use"; "0.9.0"] (Fixture.world ∅)).
  reflexivity.
Defined.
